(** * zipline.data.bundles.csvdir: the CSV directory bundle

    A shallow embedding of [csvdir_equities] and of the [ingest] closure it
    returns (src/zipline/data/bundles/csvdir.py), followed by the properties
    of the ingestion run.

    Python values are embedded as follows.
    - [str] is [string]; [sorted] on strings is the sort for the code point
      order, which on these byte strings is [String.le].
    - A pandas [Timestamp] is its count of nanoseconds since the epoch, in
      [Z], with the upper bound of [datetime64[ns]] written out where the
      code adds to it.
    - An index label is what [read_csv] makes of the first column of a row:
      a timestamp, with or without a time zone, the missing value [NaT] for
      a blank, or the text itself when the column did not parse as dates.
    - A [DataFrame] read from a file is a column header together with its
      rows in order, each row keyed by its index label: an association list,
      since both the order and repeated labels matter to [reindex]. A cell
      is missing, an integer, a float or another object; a column whose
      cells are all integers is an [int64] column.
    - The metadata table is a list updated in place by position.
    - The operating system, the calendar and the writers are collaborators
      of the module: they are taken as arguments, and what the run does to
      them is recorded as a list of events. *)

From stdpp Require Import list strings sorting.
From Stdlib Require Import ZArith QArith.

Open Scope string_scope.
Open Scope list_scope.
Open Scope nat_scope.

(** ** Python exceptions and outcomes *)

Inductive PyExc : Type :=
| SystemExit (code : Z)
| KeyboardInterrupt
| FileNotFoundError
| ParserError
| ValueError (msg : string)
| IndexError
| TypeError
| OutOfBoundsDatetime
| OtherError (name : string).

(** A computation either returns a value or raises. *)
Inductive Res (A : Type) : Type :=
| Ok (a : A)
| Raise (e : PyExc).
Arguments Ok {A} a.
Arguments Raise {A} e.

Definition bind {A B} (r : Res A) (k : A -> Res B) : Res B :=
  match r with
  | Ok a => k a
  | Raise e => Raise e
  end.

Notation "'let*' x ':=' r 'in' k" := (bind r (fun x => k))
  (at level 10, x name, r at level 100, k at level 200).

(** ** Strings *)

Module Str.

(** [s.endswith(suffix)] *)
Fixpoint endswith (s suffix : string) : bool :=
  if String.eqb s suffix then true
  else match s with
       | EmptyString => false
       | String _ s' => endswith s' suffix
       end.

(** [s.split(sep)[0]] for a non-empty [sep]: the part of [s] before the
    first occurrence of [sep], all of [s] when there is none. *)
Fixpoint split_head (sep s : string) : string :=
  match s with
  | EmptyString => EmptyString
  | String c s' =>
      if String.prefix sep s then EmptyString
      else String c (split_head sep s')
  end.

(** [s] without the suffix [suffix], when it ends with it. *)
Definition strip_suffix (suffix s : string) : string :=
  if endswith s suffix
  then String.substring 0 (String.length s - String.length suffix) s
  else s.

(** [sorted(xs)] on strings. *)
Definition sorted (xs : list string) : list string :=
  merge_sort String.le xs.

(** [os.path.join(a, b)] for a relative [b]. *)
Definition path_join (a b : string) : string :=
  if String.eqb a "" then b
  else if endswith a "/" then a +:+ b
  else a +:+ "/" +:+ b.

End Str.

(** ** Timestamps *)

Definition Timestamp : Type := Z.

(** [pandas.Timestamp.max], in nanoseconds. *)
Definition Timestamp_max : Z := 9223372036854775807.

(** [pandas.Timedelta(days=1)], in nanoseconds. *)
Definition one_day : Z := 86400000000000.

(** An index label: a [Timestamp] with the nanoseconds it holds and its
    time zone, if it has one; [NaT]; or the text of a date that did not
    parse. *)
Inductive Label : Type :=
| Date (t : Timestamp) (tz : option string)
| NaT
| Text (s : string).

#[global] Instance Label_eq_dec : EqDecision Label.
Proof. solve_decision. Defined.

(** A timestamp without a time zone. *)
Definition naive (t : Timestamp) : Label := Date t None.

(** [ts + pandas.Timedelta(days=1)]: pandas refuses a result outside the
    range of [datetime64[ns]]; [NaT] stays [NaT]; Python cannot add a
    [Timedelta] to a [str]. *)
Definition add_one_day (ts : Label) : Res Label :=
  match ts with
  | Date t tz =>
      if (t + one_day <=? Timestamp_max)%Z then Ok (Date (t + one_day)%Z tz)
      else Raise OutOfBoundsDatetime
  | NaT => Ok NaT
  | Text _ => Raise TypeError
  end.

(** A session label as the calendar returns it: the wall clock time and the
    time zone it is annotated with. *)
Record AwareTimestamp : Type := mkAware {
  wall : Timestamp;
  tzinfo : string
}.

(** [sessions.tz_localize(None)] drops the annotation and keeps the wall
    clock time. *)
Definition tz_localize_None (sessions : list AwareTimestamp) : list Timestamp :=
  map wall sessions.

(** ** Data frames *)

(** A cell: missing ([NaN]), an integer, a float, or any other object. *)
Inductive Cell : Type :=
| NaN
| Int (z : Z)
| Num (x : Q)
| Obj (s : string).

Record DataFrame : Type := mkFrame {
  columns : list string;
  body : list (Label * list Cell)
}.

Module Frame.

(** [df.index] *)
Definition index (df : DataFrame) : list Label := map fst (body df).

(** The kinds of label that Python can order among themselves: timestamps
    without a time zone, timestamps with one, texts. *)
Definition kind (l : Label) : option nat :=
  match l with
  | Date _ None => Some 0
  | Date _ (Some _) => Some 1
  | Text _ => Some 2
  | NaT => None
  end.

Definition same_kind (a b : Label) : bool :=
  match kind a, kind b with
  | Some i, Some j => i =? j
  | _, _ => true
  end.

(** Whether the labels that are not missing are all of one kind. *)
Fixpoint comparable (ix : list Label) : bool :=
  match ix with
  | [] => true
  | l :: ix' => forallb (same_kind l) ix' && comparable ix'
  end.

(** The order of the labels of a sorted index: timestamps by their
    nanoseconds, texts as strings, missing labels last. *)
Definition label_ltb (a b : Label) : bool :=
  match a, b with
  | Date t _, Date u _ => (t <? u)%Z
  | Date _ _, _ => true
  | Text _, Date _ _ => false
  | Text s, Text u => String.ltb s u
  | Text _, NaT => true
  | NaT, _ => false
  end.

(** [a] is not after [b] in that order. *)
Definition label_le (a b : Label) : Prop := label_ltb b a = false.

(** Insertion of a row before the first row with a greater label. *)
Fixpoint insert_row (r : Label * list Cell)
    (rows : list (Label * list Cell)) : list (Label * list Cell) :=
  match rows with
  | [] => [r]
  | r' :: rows' =>
      if label_ltb (fst r) (fst r') then r :: rows
      else r' :: insert_row r rows'
  end.

(** [df.sort_index()]: rows in ascending order of their label, rows with a
    missing label last. Python cannot order labels of two kinds. *)
Definition sort_index (df : DataFrame) : Res DataFrame :=
  if comparable (index df) then
    Ok (mkFrame (columns df)
          (foldl (fun acc r => insert_row r acc) [] (body df)))
  else Raise TypeError.

(** The row of the first entry carrying the label [t]. *)
Fixpoint loc (t : Label) (rows : list (Label * list Cell))
    : option (list Cell) :=
  match rows with
  | [] => None
  | (t', r) :: rows' => if bool_decide (t = t') then Some r else loc t rows'
  end.

(** Whether no label occurs twice. *)
Fixpoint is_unique (ix : list Label) : bool :=
  match ix with
  | [] => true
  | t :: ix' => negb (existsb (fun t' => bool_decide (t = t')) ix')
                && is_unique ix'
  end.

(** The integer as a [float64]: itself up to [2^53] in magnitude, beyond
    that the nearest multiple of the spacing of the floats, the even one
    of two that are as near. *)
Definition float64_of_Z (z : Z) : Z :=
  let a := Z.abs z in
  if (a <=? 2 ^ 53)%Z then z
  else
    let e := (Z.log2 a - 52)%Z in
    let m := (a / 2 ^ e)%Z in
    let r := (a mod 2 ^ e)%Z in
    let half := (2 ^ (e - 1))%Z in
    let m' := if (half <? r)%Z || ((r =? half)%Z && Z.odd m)
              then (m + 1)%Z else m in
    (Z.sgn z * (m' * 2 ^ e))%Z.

(** Whether column [j] is an [int64] column: every row has an integer
    there. *)
Definition int_column (df : DataFrame) (j : nat) : bool :=
  forallb (fun r => match snd r !! j with
                    | Some (Int _) => true
                    | _ => false
                    end) (body df).

(** A row of [df] after its [int64] columns became [float64] columns. *)
Definition upcast_row (df : DataFrame) (r : list Cell) : list Cell :=
  imap (fun j c => match c with
                   | Int z => if int_column df j
                              then Num (inject_Z (float64_of_Z z)) else c
                   | _ => c
                   end) r.

(** Whether [new_index] has a label the frame lacks. *)
Definition grows (df : DataFrame) (new_index : list Label) : bool :=
  existsb (fun t => match loc t (body df) with
                    | Some _ => false
                    | None => true
                    end) new_index.

(** The row [reindex] makes for the label [t]: the row the frame has for
    it, a row of missing cells when it has none. Where [new_index] brings
    in a row of missing cells an [int64] column cannot hold them and
    becomes a [float64] column. *)
Definition conformed_row (df : DataFrame) (new_index : list Label)
    (t : Label) : list Cell :=
  match loc t (body df) with
  | Some r => if grows df new_index then upcast_row df r else r
  | None => replicate (length (columns df)) NaN
  end.

(** [df.reindex(new_index)]: one row per label of [new_index], in that
    order; a label the frame has keeps its row, any other label gets a row
    of missing cells. pandas cannot reindex from an axis that holds a
    label twice. *)
Definition reindex (df : DataFrame) (new_index : list Label)
    : Res DataFrame :=
  if is_unique (index df) then
    Ok (mkFrame (columns df)
          (map (fun t => (t, conformed_row df new_index t)) new_index))
  else Raise (ValueError "cannot reindex from a duplicate axis").

Definition fill_cell (value : Cell) (c : Cell) : Cell :=
  match c with
  | NaN => value
  | _ => c
  end.

(** [df.fillna(value)] *)
Definition fillna (value : Cell) (df : DataFrame) : DataFrame :=
  mkFrame (columns df)
          (map (fun r => (fst r, map (fill_cell value) (snd r))) (body df)).

End Frame.

(** The fill value [0.0]. *)
Definition zero : Cell := Num 0.

(** ** Sequences *)

(** [enumerate(xs, start)] *)
Fixpoint enumerate {A} (start : nat) (xs : list A) : list (nat * A) :=
  match xs with
  | [] => []
  | x :: xs' => (start, x) :: enumerate (S start) xs'
  end.

(** ** The metadata table *)

(** One row of the table built from [numpy.empty]: three date fields, which
    hold what line 95 assigns to them, and an object field, where [None] is
    Python's [None]. *)
Record MetaRow : Type := mkMeta {
  start_date : Label;
  end_date : Label;
  auto_close_date : Label;
  symbol : option string
}.

(** A row of the table handed to the asset database writer: its index
    label, its four fields and the [exchange] column. *)
Record EquityRow : Type := mkEquity {
  label : nat;
  meta : MetaRow;
  exchange : string
}.

Module Meta.

(** What a [datetime64[ns]] field left uninitialised reads as: a timestamp,
    or [NaT] for the bit pattern of [NaT]. *)
Definition stamp (bits : option Timestamp) : Label :=
  match bits with
  | Some t => naive t
  | None => NaT
  end.

(** [pandas.DataFrame(numpy.empty(n, dtype=...))]: [numpy.empty] leaves
    the datetime fields as whatever the memory held ([junk i k] for field
    [k] of row [i]) and sets the object field to [None]. *)
Definition empty (junk : nat -> nat -> option Timestamp) (n : nat)
    : list MetaRow :=
  map (fun i => mkMeta (stamp (junk i 0)) (stamp (junk i 1))
                       (stamp (junk i 2)) None) (seq 0 n).

(** [metadata.iloc[sid] = row]; a position outside the table is an
    [IndexError]. *)
Definition iloc_set (metadata : list MetaRow) (sid : nat) (row : MetaRow)
    : Res (list MetaRow) :=
  if sid <? length metadata then Ok (<[sid := row]> metadata)
  else Raise IndexError.

Definition isna (l : Label) : bool :=
  match l with
  | NaT => true
  | _ => false
  end.

Definition notna (row : MetaRow) : bool :=
  negb (isna (start_date row)) && negb (isna (end_date row)) &&
  negb (isna (auto_close_date row)) &&
  match symbol row with
  | Some _ => true
  | None => false
  end.

(** [metadata.dropna()]: the rows without a missing field, each under the
    index label it had. *)
Definition dropna (metadata : list MetaRow) : list (nat * MetaRow) :=
  List.filter (fun ir => notna (snd ir)) (enumerate 0 metadata).

(** [metadata['exchange'] = value] *)
Definition set_exchange (value : string) (metadata : list (nat * MetaRow))
    : list EquityRow :=
  map (fun ir => mkEquity (fst ir) (snd ir) value) metadata.

End Meta.

(** ** Collaborators *)

(** The operating system and the libraries that read it. *)
Record OS : Type := mkOS {
  (** [os.environ.get] *)
  os_environ : string -> option string;
  (** [os.path.isdir] *)
  isdir : string -> bool;
  (** [os.listdir]: the names in a directory, each once. *)
  listdir : string -> list string;
  (** [pandas.read_csv(path, parse_dates=[0], infer_datetime_format=True,
      index_col=0)] *)
  read_csv : string -> Res DataFrame;
  (** What [numpy.empty] finds in memory. *)
  junk : nat -> nat -> option Timestamp
}.

(** The trading calendar: [calendar.sessions_in_range(start, end)]. *)
Record TradingCalendar : Type := mkCalendar {
  sessions_in_range : Label -> Label -> list AwareTimestamp
}.

(** A bar writer consumes the sequence it is given by asking for one item
    after the other: [demand] is the number of items after which it stops
    asking, [None] when it asks until the sequence ends. *)
Record BarWriter : Type := mkBarWriter {
  bar_writer_name : string;
  demand : option nat
}.

Record AssetDBWriter : Type := mkAssetDBWriter { asset_db_name : string }.

Record AdjustmentWriter : Type := mkAdjustmentWriter { adjustment_name : string }.

(** What a run does to the logger and to the writers, in order. *)
Inductive Event : Type :=
| LogError (msg : string)
| LogDebug (symbol : string) (sid : nat)
| BarWrite (writer : BarWriter) (data : list (nat * DataFrame))
    (show_progress : bool)
| AssetDBWrite (writer : AssetDBWriter) (equities : list EquityRow)
| AdjustmentWrite (writer : AdjustmentWriter) (splits dividends : option unit).

Definition is_writer_event (ev : Event) : bool :=
  match ev with
  | BarWrite _ _ _ | AssetDBWrite _ _ | AdjustmentWrite _ _ _ => true
  | _ => false
  end.

(** ** The ingest function *)

Section Ingest.

Variable os : OS.

(** Line 60: the symbols of a directory listing. *)
Definition discover (names : list string) : list string :=
  Str.sorted
    (map (Str.split_head ".csv")
         (List.filter (fun item => Str.endswith item ".csv") names)).

(** Lines 78-79: the frame of a symbol, read and sorted. *)
Definition load (csvdir symbol : string) : Res DataFrame :=
  let* df := read_csv os (Str.path_join csvdir (symbol +:+ ".csv")) in
  Frame.sort_index df.

(** What one turn of the loop of [_pricing_iter] comes to. *)
Inductive Step : Type :=
| Continue (log : list Event)
| Yield (item : nat * DataFrame) (metadata : list MetaRow) (log : list Event)
| Abort (e : PyExc) (metadata : list MetaRow) (log : list Event).

(** Lines 90-102, for a frame with at least one row. *)
Definition align (calendar : TradingCalendar) (metadata : list MetaRow)
    (sid : nat) (symbol : string) (df : DataFrame)
    : list MetaRow * Res DataFrame :=
  match head (Frame.index df), last (Frame.index df) with
  | Some start_date, Some end_date =>
      match add_one_day end_date with
      | Raise e => (metadata, Raise e)
      | Ok ac_date =>
          match Meta.iloc_set metadata sid
                  (mkMeta start_date end_date ac_date (Some symbol)) with
          | Raise e => (metadata, Raise e)
          | Ok metadata' =>
              let sessions := sessions_in_range calendar start_date end_date in
              (metadata',
               let* df' := Frame.reindex df
                             (map naive (tz_localize_None sessions)) in
               Ok (Frame.fillna zero df'))
          end
      end
  | _, _ => (metadata, Raise IndexError)
  end.

(** Lines 75-104: the body of the loop for one [(sid, symbol)]. *)
Definition loop_body (csvdir : string) (calendar : TradingCalendar)
    (metadata : list MetaRow) (sid : nat) (symbol : string) : Step :=
  let log := [LogDebug symbol sid] in
  match load csvdir symbol with
  | Raise _ =>
      Continue (log ++ [LogError ("unable to parse " +:+ symbol +:+ ".csv")])
  | Ok df =>
      if length (Frame.index df) =? 0 then Continue log
      else
        match align calendar metadata sid symbol df with
        | (metadata', Ok df') => Yield (sid, df') metadata' log
        | (metadata', Raise e) => Abort e metadata' log
        end
  end.

(** The state in which the consumption of [_pricing_iter()] ends. *)
Record Consumed : Type := mkConsumed {
  raised : option PyExc;
  items : list (nat * DataFrame);
  table : list MetaRow;
  logged : list Event
}.

(** Lines 71-104 under a consumer that asks for [want] more items
    ([None]: for all of them). The generator runs only when asked: a
    symbol is read, and its metadata row set, on the way to the next
    item the consumer asks for. [it] is [enumerate] of what
    [maybe_show_progress] hands on, which is the symbols as they are. *)
Fixpoint _pricing_iter (csvdir : string) (calendar : TradingCalendar)
    (want : option nat) (it : list (nat * string))
    (metadata : list MetaRow) (log : list Event)
    (out : list (nat * DataFrame)) : Consumed :=
  match want, it with
  | Some 0, _ => mkConsumed None out metadata log
  | _, [] => mkConsumed None out metadata log
  | _, (sid, symbol) :: it' =>
      match loop_body csvdir calendar metadata sid symbol with
      | Continue log' =>
          _pricing_iter csvdir calendar want it' metadata (log ++ log') out
      | Yield item metadata' log' =>
          _pricing_iter csvdir calendar (Nat.pred <$> want) it' metadata'
            (log ++ log') (out ++ [item])
      | Abort e metadata' log' =>
          mkConsumed (Some e) out metadata' (log ++ log')
      end
  end.

(** The result of a call of [ingest]. *)
Record Run : Type := mkRun {
  outcome : Res unit;
  events : list Event
}.

(** Python's [not s] for an optional string. *)
Definition falsy (s : option string) : bool :=
  match s with
  | None => true
  | Some s => String.eqb s ""
  end.

(** Line 106: the writer for the time frame. *)
Definition select_writer (tframe : string)
    (minute_bar_writer daily_bar_writer : BarWriter) : BarWriter :=
  if String.eqb tframe "minute" then minute_bar_writer
  else daily_bar_writer.

(** Lines 48-118. [tframe] is the variable of [csvdir_equities] that the
    closure refers to. *)
Definition ingest (tframe : string)
    (environ : string -> option string)
    (asset_db_writer : AssetDBWriter)
    (minute_bar_writer daily_bar_writer : BarWriter)
    (adjustment_writer : AdjustmentWriter)
    (calendar : TradingCalendar)
    (start_session end_session : AwareTimestamp)
    (cache : list (string * string))
    (show_progress : bool)
    (output_dir : string)
    (start end_ : option Timestamp) : Run :=
  let csvdir := os_environ os "CSVDIR" in
  if falsy csvdir then
    mkRun (Raise (SystemExit 1))
          [LogError "CSVDIR environment variable is not set"]
  else
    let csvdir := default "" csvdir in
    if negb (isdir os csvdir) then
      mkRun (Raise (SystemExit 1))
            [LogError (csvdir +:+ " is not a directory")]
    else
      let symbols := discover (listdir os csvdir) in
      let log :=
        if length symbols =? 0
        then [LogError ("no <symbol>.csv files found in " +:+ csvdir)]
        else [] in
      let metadata := Meta.empty (junk os) (length symbols) in
      let writer := select_writer tframe minute_bar_writer daily_bar_writer in
      let c := _pricing_iter csvdir calendar (demand writer)
                 (enumerate 0 symbols) metadata log [] in
      let log := logged c ++ [BarWrite writer (items c) show_progress] in
      match raised c with
      | Some e => mkRun (Raise e) log
      | None =>
          let metadata := Meta.dropna (table c) in
          let metadata := Meta.set_exchange "CSVDIR" metadata in
          mkRun (Ok tt)
                (log ++ [AssetDBWrite asset_db_writer metadata;
                         AdjustmentWrite adjustment_writer None None])
      end.

(** Lines 17-120: the ingest function for a time frame. *)
Definition csvdir_equities (tframe : string) (start end_ : option Timestamp) :=
  fun environ asset_db_writer minute_bar_writer daily_bar_writer
      adjustment_writer calendar start_session end_session cache
      show_progress output_dir =>
    ingest tframe environ asset_db_writer minute_bar_writer daily_bar_writer
      adjustment_writer calendar start_session end_session cache
      show_progress output_dir start end_.

End Ingest.

(** ** Notions the properties are stated with *)

Section Notions.

Variable os : OS.
Variable csvdir : string.
Variable calendar : TradingCalendar.

(** The frame of a symbol whose file parses and has at least one row. *)
Definition parsed_nonempty (symbol : string) : option DataFrame :=
  match load os csvdir symbol with
  | Ok df => if length (Frame.index df) =? 0 then None else Some df
  | Raise _ => None
  end.

(** The metadata row of a symbol with the raw frame [raw]. *)
Definition row_of (symbol : string) (raw : DataFrame) (row : MetaRow) : Prop :=
  exists start_date end_date ac_date,
    head (Frame.index raw) = Some start_date /\
    last (Frame.index raw) = Some end_date /\
    add_one_day end_date = Ok ac_date /\
    row = mkMeta start_date end_date ac_date (Some symbol).

(** The index the raw frame is aligned to: the sessions between its first
    and its last label, without their time zone. *)
Definition session_index (start_date end_date : Label) : list Label :=
  map naive (tz_localize_None (sessions_in_range calendar start_date end_date)).

(** The aligned frame of the raw frame [raw]. *)
Definition aligned (raw df : DataFrame) : Prop :=
  exists start_date end_date,
    head (Frame.index raw) = Some start_date /\
    last (Frame.index raw) = Some end_date /\
    Frame.is_unique (Frame.index raw) = true /\
    df = Frame.fillna zero
           (mkFrame (columns raw)
              (map (fun t => (t, Frame.conformed_row raw
                                   (session_index start_date end_date) t))
                 (session_index start_date end_date))).

End Notions.

(** The pairs a bar writer received in an event. *)
Definition bar_payload (ev : Event) : list (nat * DataFrame) :=
  match ev with
  | BarWrite _ data _ => data
  | _ => []
  end.

(** The rows the asset database writer received in an event. *)
Definition equities_payload (ev : Event) : list EquityRow :=
  match ev with
  | AssetDBWrite _ equities => equities
  | _ => []
  end.

Definition bar_data (r : Run) : list (nat * DataFrame) :=
  flat_map bar_payload (events r).

Definition equities_written (r : Run) : list EquityRow :=
  flat_map equities_payload (events r).


(** What it is for the cells of [raw] to be passed through to [df]
    unchanged: at a label of both, a cell that is not missing in [raw] is
    the same cell in [df]. *)
Definition passed_through (raw df : DataFrame) : Prop :=
  forall t row row' j c,
    (t, row) ∈ body raw -> (t, row') ∈ body df ->
    row !! j = Some c -> c <> NaN -> row' !! j = Some c.

(** What line 102 makes of a cell that line 99 kept: [0.0] for a missing
    cell, the float of an integer when the column was widened, the cell
    itself otherwise. *)
Definition aligned_cell (widened : bool) (c : Cell) : Cell :=
  match c with
  | NaN => zero
  | Int z => if widened then Num (inject_Z (Frame.float64_of_Z z)) else c
  | _ => c
  end.

(** Symbol discovery as the description of the module has it: the sorted
    set of the distinct names that are left when the suffix is stripped from
    every file name that ends with it. *)
Definition symbol_names (names : list string) : list string :=
  Str.sorted
    (remove_dups
       (map (Str.strip_suffix ".csv")
            (List.filter (fun item => Str.endswith item ".csv") names))).

(** The directory the process environment names, and its symbols. *)
Definition csvdir_of (os : OS) : string := default "" (os_environ os "CSVDIR").

Definition symbols_of (os : OS) : list string :=
  discover (listdir os (csvdir_of os)).

(** Whether [ingest] gets past lines 52-58. *)
Definition env_ok (os : OS) : bool :=
  negb (falsy (os_environ os "CSVDIR")) && isdir os (csvdir_of os).

Definition is_log (ev : Event) : Prop :=
  match ev with
  | LogError _ | LogDebug _ _ => True
  | _ => False
  end.

Section Consumption.

Variable os : OS.
Variable tframe : string.
Variable minute_bar_writer daily_bar_writer : BarWriter.
Variable calendar : TradingCalendar.

(** Line 107: the consumption of the sequence by the selected writer. *)
Definition consumption : Consumed :=
  _pricing_iter os (csvdir_of os) calendar (demand (select_writer tframe minute_bar_writer daily_bar_writer))
    (enumerate 0 (symbols_of os))
    (Meta.empty (junk os) (length (symbols_of os)))
    (if length (symbols_of os) =? 0
     then [LogError ("no <symbol>.csv files found in " +:+ csvdir_of os)]
     else [])
    [].

End Consumption.

(** The bar writers a run called, each with the progress flag it was
    given. *)
Definition bar_call (ev : Event) : list (BarWriter * bool) :=
  match ev with
  | BarWrite writer _ show_progress => [(writer, show_progress)]
  | _ => []
  end.

Definition bar_calls (r : Run) : list (BarWriter * bool) :=
  flat_map bar_call (events r).


(** Whether a file name is plain: it does not end in [.csv], or what is left
    of it without that suffix holds no [.csv]. *)
Definition plain_name (name : string) : bool :=
  negb (Str.endswith name ".csv") ||
  String.eqb (Str.split_head ".csv" (Str.strip_suffix ".csv" name))
             (Str.strip_suffix ".csv" name).

(** ** A sample run

    A directory with three symbol files and one other file: [AAA.csv] has
    rows for 2020-01-02 and 2020-01-06 and one missing cell, [BBB.csv] has a
    header only, [CCC.csv] cannot be parsed. The calendar has the sessions
    of the first full week of January 2020. *)

Module Sample.

(** Midnight of the day [d] days after the epoch. *)
Definition day (d : Z) : Timestamp := (d * one_day)%Z.

Definition jan02 : Timestamp := day 18263.
Definition jan03 : Timestamp := day 18264.
Definition jan06 : Timestamp := day 18267.
Definition jan07 : Timestamp := day 18268.

Definition header : list string := ["open"; "close"; "volume"].

Definition aaa : DataFrame :=
  mkFrame header
    [ (naive jan06, [Num 3.5; NaN; Num 200]);
      (naive jan02, [Num 1.25; Num 1.5; Num 100]) ].

Definition bbb : DataFrame := mkFrame header [].

Definition os : OS :=
  mkOS
    (fun name => if String.eqb name "CSVDIR" then Some "/data" else None)
    (fun path => String.eqb path "/data")
    (fun path =>
       if String.eqb path "/data"
       then ["BBB.csv"; "notes.txt"; "CCC.csv"; "AAA.csv"]
       else [])
    (fun path =>
       if String.eqb path "/data/AAA.csv" then Ok aaa
       else if String.eqb path "/data/BBB.csv" then Ok bbb
       else if String.eqb path "/data/CCC.csv" then Raise ParserError
       else Raise FileNotFoundError)
    (fun i k => Some (Z.of_nat (i + k))).

(** The sessions from [a] on, up to [b] when [b] is a date. *)
Definition calendar : TradingCalendar :=
  mkCalendar
    (fun a b =>
       match a with
       | Date ta _ =>
           List.filter
             (fun s => (ta <=? wall s)%Z &&
                       match b with
                       | Date tb _ => (wall s <=? tb)%Z
                       | _ => true
                       end)
             (map (fun t => mkAware t "UTC") [jan02; jan03; jan06; jan07])
       | _ => []
       end).

Definition daily : BarWriter := mkBarWriter "daily" None.
Definition minute : BarWriter := mkBarWriter "minute" None.
Definition assets : AssetDBWriter := mkAssetDBWriter "assets".
Definition adjustments : AdjustmentWriter := mkAdjustmentWriter "adjustments".

(** The same system without [CSVDIR] in the environment. *)
Definition os_unset : OS :=
  mkOS (fun _ => None) (isdir os) (listdir os) (read_csv os) (junk os).

(** The same system with a directory that holds no symbol file. *)
Definition os_bare : OS :=
  mkOS (os_environ os) (isdir os) (fun _ => ["notes.txt"]) (read_csv os)
       (junk os).

(** The frame of [AAA.csv] once sorted. *)
Definition raw_aaa : DataFrame :=
  mkFrame header
    [ (naive jan02, [Num 1.25; Num 1.5; Num 100]);
      (naive jan06, [Num 3.5; NaN; Num 200]) ].

(** The frame of [AAA.csv] on the sessions from 2020-01-02 to
    2020-01-06, and its row of metadata. *)
Definition aligned_aaa : DataFrame :=
  mkFrame header
    [ (naive jan02, [Num 1.25; Num 1.5; Num 100]);
      (naive jan03, [Num 0; Num 0; Num 0]);
      (naive jan06, [Num 3.5; Num 0; Num 200]) ].

Definition equity_aaa : EquityRow :=
  mkEquity 0 (mkMeta (naive jan02) (naive jan06) (naive jan07) (Some "AAA"))
           "CSVDIR".



(** A directory with two files that parse, the second with rows for
    2020-01-03 and 2020-01-07. *)
Definition aab : DataFrame :=
  mkFrame header
    [ (naive jan03, [Num 7; Num 7.5; Num 70]);
      (naive jan07, [Num 8; Num 8.5; Num 80]) ].

Definition os_pair : OS :=
  mkOS (os_environ os) (isdir os) (fun _ => ["AAB.csv"; "AAA.csv"])
       (fun path => if String.eqb path "/data/AAA.csv" then Ok aaa
                    else if String.eqb path "/data/AAB.csv" then Ok aab
                    else Raise FileNotFoundError)
       (junk os).

(** A bar writer that stops after one item. *)
Definition daily_once : BarWriter := mkBarWriter "daily" (Some 1).

(** The system [os] with one more file, outside the listing. *)
Definition os_more : OS :=
  mkOS (os_environ os) (isdir os) (listdir os)
       (fun path => if String.eqb path "/data/hidden" then Ok aab
                    else read_csv os path)
       (junk os).

Definition run : Run :=
  ingest os "daily" (fun _ => None) assets minute daily adjustments calendar
    (mkAware jan02 "UTC") (mkAware jan07 "UTC") [] false "/out" None None.

(** A file whose second row has a blank date, alone in its directory. *)
Definition gap : DataFrame :=
  mkFrame header
    [ (naive jan02, [Num 1; Num 1; Num 10]);
      (NaT, [Num 2; Num 2; Num 20]) ].

Definition os_gap : OS :=
  mkOS (os_environ os) (isdir os) (fun _ => ["GAP.csv"])
       (fun path => if String.eqb path "/data/GAP.csv" then Ok gap
                    else Raise FileNotFoundError)
       (junk os).

Definition run_gap : Run :=
  ingest os_gap "daily" (fun _ => None) assets minute daily adjustments
    calendar (mkAware jan02 "UTC") (mkAware jan07 "UTC") [] false "/out"
    None None.

(** What the bar writer gets for [GAP.csv]. *)
Definition aligned_gap : DataFrame :=
  mkFrame header
    [ (naive jan02, [Num 1; Num 1; Num 10]);
      (naive jan03, [Num 0; Num 0; Num 0]);
      (naive jan06, [Num 0; Num 0; Num 0]);
      (naive jan07, [Num 0; Num 0; Num 0]) ].

(** A file whose dates do not parse, so that [read_csv] leaves them as
    text, beside [AAA.csv]. *)
Definition txt : DataFrame :=
  mkFrame header
    [ (Text "n/a", [Num 1; Num 1; Num 10]);
      (Text "soon", [Num 2; Num 2; Num 20]) ].

Definition os_txt : OS :=
  mkOS (os_environ os) (isdir os) (fun _ => ["TXT.csv"; "AAA.csv"])
       (fun path => if String.eqb path "/data/AAA.csv" then Ok aaa
                    else if String.eqb path "/data/TXT.csv" then Ok txt
                    else Raise FileNotFoundError)
       (junk os).

Definition run_txt : Run :=
  ingest os_txt "daily" (fun _ => None) assets minute daily adjustments
    calendar (mkAware jan02 "UTC") (mkAware jan07 "UTC") [] false "/out"
    None None.

(** A file with one column of integers, rows for 2020-01-02 and
    2020-01-06, alone in its directory. *)
Definition big : DataFrame :=
  mkFrame ["volume"]
    [ (naive jan02, [Int 9007199254740993]);
      (naive jan06, [Int 7]) ].

Definition os_big : OS :=
  mkOS (os_environ os) (isdir os) (fun _ => ["BIG.csv"])
       (fun path => if String.eqb path "/data/BIG.csv" then Ok big
                    else Raise FileNotFoundError)
       (junk os).

Definition run_big : Run :=
  ingest os_big "daily" (fun _ => None) assets minute daily adjustments
    calendar (mkAware jan02 "UTC") (mkAware jan07 "UTC") [] false "/out"
    None None.

(** What the bar writer gets for [BIG.csv]. *)
Definition aligned_big : DataFrame :=
  mkFrame ["volume"]
    [ (naive jan02, [Num 9007199254740992]);
      (naive jan03, [Num 0]);
      (naive jan06, [Num 7]) ].

(** A file whose dates carry a time zone, alone in its directory. *)
Definition utc : DataFrame :=
  mkFrame ["volume"]
    [ (Date jan02 (Some "UTC"), [Int 5]);
      (Date jan03 (Some "UTC"), [Int 6]) ].

Definition os_utc : OS :=
  mkOS (os_environ os) (isdir os) (fun _ => ["UTC.csv"])
       (fun path => if String.eqb path "/data/UTC.csv" then Ok utc
                    else Raise FileNotFoundError)
       (junk os).

Definition run_utc : Run :=
  ingest os_utc "daily" (fun _ => None) assets minute daily adjustments
    calendar (mkAware jan02 "UTC") (mkAware jan07 "UTC") [] false "/out"
    None None.

End Sample.

(** * Properties *)

(** ** Sequences and frames *)

Lemma enumerate_fst {A} (xs : list A) k :
  map fst (enumerate k xs) = seq k (length xs).
Proof.
  revert k. induction xs as [|x xs IH]; intros k; simpl; [done|].
  by rewrite IH.
Qed.

Lemma enumerate_length {A} (xs : list A) k :
  length (enumerate k xs) = length xs.
Proof. revert k. induction xs as [|x xs IH]; intros k; simpl; auto. Qed.

Lemma enumerate_elem_of {A} (xs : list A) k i x :
  (i, x) ∈ enumerate k xs <-> k <= i /\ xs !! (i - k) = Some x.
Proof.
  revert k. induction xs as [|y xs IH]; intros k; simpl.
  - split; [by intros ?%elem_of_nil | by intros [_ ?]].
  - rewrite elem_of_cons, IH. split.
    + intros [[= -> ->] | [Hk Hx]].
      * split; [lia|]. by rewrite Nat.sub_diag.
      * split; [lia|]. by replace (i - k) with (S (i - S k)) by lia.
    + intros [Hk Hx]. destruct (decide (i = k)) as [->|Hne].
      * left. rewrite Nat.sub_diag in Hx. simpl in Hx. congruence.
      * right. split; [lia|].
        by replace (i - k) with (S (i - S k)) in Hx by lia.
Qed.

(** [enumerate] numbers the positions: the pair [(i, x)] occurs exactly
    when [x] is at position [i]. *)
Lemma enumerate_lookup {A} (xs : list A) i x :
  (i, x) ∈ enumerate 0 xs <-> xs !! i = Some x.
Proof.
  rewrite enumerate_elem_of, Nat.sub_0_r. split; [by intros [_ ?]|].
  intros ?. split; [lia | done].
Qed.

Lemma seq_strongly_sorted k n : StronglySorted lt (seq k n).
Proof.
  revert k. induction n as [|n IH]; intros k; simpl; constructor; [apply IH|].
  apply Forall_forall. intros j Hj%elem_of_seq. lia.
Qed.

Module FrameFacts.
Import Frame.

Lemma index_fillna v df : index (fillna v df) = index df.
Proof.
  unfold index, fillna. simpl. rewrite map_map. by apply map_ext.
Qed.

Lemma is_unique_NoDup ix : is_unique ix = true <-> NoDup ix.
Proof.
  induction ix as [|t ix IH]; simpl.
  - split; [constructor | done].
  - rewrite andb_true_iff, negb_true_iff, IH, NoDup_cons.
    apply and_iff_compat_r. split.
    + intros Hex Hin. apply not_true_iff_false in Hex. apply Hex.
      apply existsb_exists. exists t. split; [|by apply bool_decide_eq_true].
      by apply list_elem_of_In.
    + intros Hnin. apply not_true_iff_false. intros Hex.
      apply existsb_exists in Hex as (t' & Hin & Heq).
      apply bool_decide_eq_true in Heq. subst t'.
      by apply Hnin, list_elem_of_In.
Qed.

Lemma loc_None t rows : loc t rows = None <-> t ∉ map fst rows.
Proof.
  induction rows as [|[t' r] rows IH]; simpl.
  - split; [intros _ ?%elem_of_nil; done | done].
  - rewrite not_elem_of_cons. destruct (bool_decide_reflect (t = t')) as [->|Hne].
    + split; [done | by intros [? _]].
    + rewrite IH. tauto.
Qed.

Lemma loc_Some_elem_of t r rows : loc t rows = Some r -> (t, r) ∈ rows.
Proof.
  induction rows as [|[t' r'] rows IH]; simpl; [done|].
  destruct (bool_decide_reflect (t = t')) as [->|Hne].
  - intros [= ->]. left.
  - intros H. right. auto.
Qed.

(** With distinct labels, the row found for a label is the one row that
    carries it. *)
Lemma loc_unique t r rows :
  NoDup (map fst rows) -> (t, r) ∈ rows -> loc t rows = Some r.
Proof.
  induction rows as [|[t' r'] rows IH]; simpl.
  - by intros _ ?%elem_of_nil.
  - rewrite NoDup_cons. intros [Hnin Hnd] [[= -> ->]|Hin]%elem_of_cons.
    + by rewrite bool_decide_eq_true_2.
    + destruct (bool_decide_reflect (t = t')) as [->|Hne]; [|auto].
      exfalso. apply Hnin. apply list_elem_of_fmap. by exists (t', r).
Qed.

End FrameFacts.

(** ** The loop of [_pricing_iter] *)

Section Loop.

Variable os : OS.
Variable csvdir : string.
Variable calendar : TradingCalendar.

Lemma align_metadata metadata sid symbol raw metadata' r :
  align calendar metadata sid symbol raw = (metadata', r) ->
  metadata' = metadata \/
  exists row, row_of symbol raw row /\ sid < length metadata /\
              metadata' = <[sid := row]> metadata.
Proof.
  unfold align, Meta.iloc_set.
  destruct (head (Frame.index raw)) as [st|] eqn:Hst;
    [|intros [= <- _]; by left].
  destruct (last (Frame.index raw)) as [en|] eqn:Hen;
    [|intros [= <- _]; by left].
  destruct (add_one_day en) as [ac|e] eqn:Hac; [|intros [= <- _]; by left].
  destruct (Nat.ltb_spec sid (length metadata)) as [Hlt|];
    [|intros [= <- _]; by left].
  intros [= <- _]. right. eexists. split; [|done].
  by exists st, en, ac.
Qed.

Lemma align_Ok metadata sid symbol raw metadata' df :
  align calendar metadata sid symbol raw = (metadata', Ok df) ->
  aligned calendar raw df /\
  exists row, row_of symbol raw row /\ sid < length metadata /\
              metadata' = <[sid := row]> metadata.
Proof.
  unfold align, Meta.iloc_set, Frame.reindex, aligned, row_of, session_index.
  destruct (head (Frame.index raw)) as [st|] eqn:Hst; [|done].
  destruct (last (Frame.index raw)) as [en|] eqn:Hen; [|done].
  destruct (add_one_day en) as [ac|e] eqn:Hac; [|done].
  destruct (Nat.ltb_spec sid (length metadata)) as [Hlt|]; [|done].
  destruct (Frame.is_unique (Frame.index raw)) eqn:Hu; [|done].
  simpl. intros [= <- <-]. split.
  - by exists st, en.
  - eexists. split; [by exists st, en, ac | done].
Qed.

(** The three ways a turn of the loop ends. *)
Lemma loop_body_cases metadata sid symbol :
  match loop_body os csvdir calendar metadata sid symbol with
  | Continue _ => parsed_nonempty os csvdir symbol = None
  | Yield item metadata' _ =>
      exists raw df, parsed_nonempty os csvdir symbol = Some raw /\ item = (sid, df) /\
        align calendar metadata sid symbol raw = (metadata', Ok df)
  | Abort e metadata' _ =>
      exists raw, parsed_nonempty os csvdir symbol = Some raw /\
        align calendar metadata sid symbol raw = (metadata', Raise e)
  end.
Proof.
  unfold loop_body, parsed_nonempty.
  destruct (load os csvdir symbol) as [raw|e]; [|done].
  destruct (length (Frame.index raw) =? 0); [done|].
  destruct (align calendar metadata sid symbol raw) as [metadata' [df|e]] eqn:Ha.
  - by exists raw, df.
  - by exists raw.
Qed.

Lemma pricing_iter_stop it metadata log out :
  _pricing_iter os csvdir calendar (Some 0) it metadata log out =
  mkConsumed None out metadata log.
Proof. by destruct it. Qed.

Lemma pricing_iter_nil want metadata log out :
  _pricing_iter os csvdir calendar want [] metadata log out =
  mkConsumed None out metadata log.
Proof. by destruct want as [[|?]|]. Qed.

Lemma pricing_iter_cons want sid symbol it metadata log out :
  want <> Some 0 ->
  _pricing_iter os csvdir calendar want ((sid, symbol) :: it) metadata log out =
  match loop_body os csvdir calendar metadata sid symbol with
  | Continue log' =>
      _pricing_iter os csvdir calendar want it metadata (log ++ log') out
  | Yield item metadata' log' =>
      _pricing_iter os csvdir calendar (Nat.pred <$> want) it metadata'
        (log ++ log') (out ++ [item])
  | Abort e metadata' log' => mkConsumed (Some e) out metadata' (log ++ log')
  end.
Proof. by destruct want as [[|?]|]. Qed.

End Loop.

Section LoopInvariants.

Variable os : OS.
Variable csvdir : string.
Variable calendar : TradingCalendar.

Abbreviation run_iter := (_pricing_iter os csvdir calendar).
Abbreviation parsed := (parsed_nonempty os csvdir).

Lemma parsed_nonempty_Some symbol raw :
  parsed symbol = Some raw ->
  load os csvdir symbol = Ok raw /\
  exists start_date end_date,
    head (Frame.index raw) = Some start_date /\
    last (Frame.index raw) = Some end_date.
Proof.
  unfold parsed_nonempty.
  destruct (load os csvdir symbol) as [df|e]; [|done].
  destruct (Nat.eqb_spec (length (Frame.index df)) 0) as [|Hne]; [done|].
  intros [= ->]. split; [done|].
  destruct (head (Frame.index raw)) as [st|] eqn:Hst.
  - destruct (last (Frame.index raw)) as [en|] eqn:Hen; [by exists st, en|].
    apply last_None in Hen. by rewrite Hen in Hne.
  - apply head_None in Hst. by rewrite Hst in Hne.
Qed.

Lemma insert_lookup_cases (metadata : list MetaRow) sid row i row' :
  <[sid := row]> metadata !! i = Some row' ->
  metadata !! i = Some row' \/ (i = sid /\ row' = row).
Proof.
  intros H. apply list_lookup_insert_Some in H.
  destruct H as [(-> & -> & _)|[_ ?]]; auto.
Qed.

(** The table keeps its length, and a row of it is either as it was or
    the row of the symbol enumerated at its position. *)
Lemma pricing_iter_table want it metadata log out :
  let c := run_iter want it metadata log out in
  length (table c) = length metadata /\
  forall i row, table c !! i = Some row ->
    metadata !! i = Some row \/
    exists symbol raw,
      (i, symbol) ∈ it /\ parsed symbol = Some raw /\ row_of symbol raw row.
Proof.
  revert want metadata log out.
  induction it as [|[sid symbol] it IH]; intros want metadata log out.
  { rewrite pricing_iter_nil. simpl. auto. }
  destruct (decide (want = Some 0)) as [->|Hw].
  { rewrite pricing_iter_stop. simpl. auto. }
  rewrite pricing_iter_cons by done.
  pose proof (loop_body_cases os csvdir calendar metadata sid symbol) as Hc.
  destruct (loop_body os csvdir calendar metadata sid symbol)
    as [log'|item metadata' log'|e metadata' log'].
  - destruct (IH want metadata (log ++ log') out) as [Hlen Hrows].
    split; [done|]. intros i row Hi.
    destruct (Hrows i row Hi) as [?|(s & raw & ? & ? & ?)]; [by left|].
    right. exists s, raw. by rewrite elem_of_cons; auto.
  - destruct Hc as (raw & df & Hp & -> & Ha).
    apply align_Ok in Ha as (_ & row0 & Hrow0 & Hlt & ->).
    destruct (IH (Nat.pred <$> want) (<[sid:=row0]> metadata) (log ++ log')
                (out ++ [(sid, df)])) as [Hlen Hrows].
    split; [by rewrite Hlen, length_insert|]. intros i row Hi.
    destruct (Hrows i row Hi) as [Hins|(s & raw' & ? & ? & ?)].
    + apply insert_lookup_cases in Hins as [?|[-> ->]]; [by left|].
      right. exists symbol, raw. by rewrite elem_of_cons; auto.
    + right. exists s, raw'. by rewrite elem_of_cons; auto.
  - destruct Hc as (raw & Hp & Ha). simpl.
    apply align_metadata in Ha as [->|(row0 & Hrow0 & Hlt & ->)].
    + auto.
    + split; [by rewrite length_insert|]. intros i row Hi.
      apply insert_lookup_cases in Hi as [?|[-> ->]]; [by left|].
      right. exists symbol, raw. by rewrite elem_of_cons; auto.
Qed.

(** The items handed out extend the ones handed out before, each is the
    aligned frame of a symbol under its number, and they come in the order
    of the enumeration. *)
Lemma pricing_iter_items want it metadata log out :
  exists new,
    items (run_iter want it metadata log out) = out ++ new /\
    Forall (fun item => exists symbol raw,
              (fst item, symbol) ∈ it /\ parsed symbol = Some raw /\
              aligned calendar raw (snd item)) new /\
    (StronglySorted lt (map fst it) -> StronglySorted lt (map fst new)).
Proof.
  revert want metadata log out.
  induction it as [|[sid symbol] it IH]; intros want metadata log out.
  { rewrite pricing_iter_nil. exists []. simpl. rewrite app_nil_r.
    repeat split; [constructor | constructor]. }
  destruct (decide (want = Some 0)) as [->|Hw].
  { rewrite pricing_iter_stop. exists []. simpl. rewrite app_nil_r.
    repeat split; [constructor | constructor]. }
  rewrite pricing_iter_cons by done.
  pose proof (loop_body_cases os csvdir calendar metadata sid symbol) as Hc.
  destruct (loop_body os csvdir calendar metadata sid symbol)
    as [log'|item metadata' log'|e metadata' log'].
  - destruct (IH want metadata (log ++ log') out) as (new & Hit & Hall & Hs).
    exists new. split; [done|]. split.
    + eapply Forall_impl; [exact Hall|]. intros item (s & raw & ? & ? & ?).
      exists s, raw. by rewrite elem_of_cons; auto.
    + simpl. intros Hsorted. apply Hs. by inversion Hsorted.
  - destruct Hc as (raw & df & Hp & -> & Ha).
    apply align_Ok in Ha as [Hal _].
    destruct (IH (Nat.pred <$> want) metadata' (log ++ log')
                (out ++ [(sid, df)])) as (new & Hit & Hall & Hs).
    exists ((sid, df) :: new). split; [by rewrite Hit, <- app_assoc|].
    split.
    + constructor.
      * exists symbol, raw. simpl. by rewrite elem_of_cons; auto.
      * eapply Forall_impl; [exact Hall|]. intros item (s & raw' & ? & ? & ?).
        exists s, raw'. by rewrite elem_of_cons; auto.
    + simpl. intros Hsorted. inversion Hsorted as [|? ? Hst Hlt]; subst.
      constructor; [by apply Hs|].
      rewrite Forall_forall in Hlt |- *. intros j Hj.
      apply list_elem_of_fmap in Hj as (item & -> & Hitem).
      rewrite Forall_forall in Hall.
      destruct (Hall item Hitem) as (s & _ & Hin & _).
      apply Hlt. apply list_elem_of_fmap. by exists (fst item, s).
  - exists []. simpl. rewrite app_nil_r.
    repeat split; [constructor | constructor].
Qed.

(** *** A consumer that asks for every item *)

Lemma pricing_iter_drain_items it metadata log out sid symbol raw :
  let c := run_iter None it metadata log out in
  raised c = None ->
  (sid, symbol) ∈ it -> parsed symbol = Some raw ->
  exists df, (sid, df) ∈ items c.
Proof.
  revert metadata log out.
  induction it as [|[sid0 symbol0] it IH]; intros metadata log out c Hr Hin Hp.
  { by apply elem_of_nil in Hin. }
  subst c. rewrite pricing_iter_cons in Hr |- * by done.
  pose proof (loop_body_cases os csvdir calendar metadata sid0 symbol0) as Hc.
  destruct (loop_body os csvdir calendar metadata sid0 symbol0)
    as [log'|item metadata' log'|e metadata' log'].
  - apply elem_of_cons in Hin as [[= -> ->]|Hin]; [congruence|].
    by apply IH.
  - destruct Hc as (raw0 & df & _ & -> & _).
    apply elem_of_cons in Hin as [[= -> ->]|Hin]; [|by apply IH].
    exists df. simpl.
    destruct (pricing_iter_items None it metadata'
                (log ++ log') (out ++ [(sid0, df)])) as (new & -> & _).
    rewrite !elem_of_app, list_elem_of_singleton. auto.
  - done.
Qed.

End LoopInvariants.

(** ** What a run hands to the writers *)

Lemma bar_payload_logs log : Forall is_log log -> flat_map bar_payload log = [].
Proof.
  induction 1 as [|ev log Hev _ IH]; simpl; [done|].
  rewrite IH. by destruct ev.
Qed.

Lemma equities_payload_logs log :
  Forall is_log log -> flat_map equities_payload log = [].
Proof.
  induction 1 as [|ev log Hev _ IH]; simpl; [done|].
  rewrite IH. by destruct ev.
Qed.

Section RunFacts.

Variable os : OS.
Variable tframe : string.
Variable minute_bar_writer daily_bar_writer : BarWriter.
Variable calendar : TradingCalendar.

Abbreviation writer :=
  (select_writer tframe minute_bar_writer daily_bar_writer).
Abbreviation consumed :=
  (consumption os tframe minute_bar_writer daily_bar_writer calendar).

Lemma loop_body_log csvdir metadata sid symbol :
  match loop_body os csvdir calendar metadata sid symbol with
  | Continue log | Yield _ _ log | Abort _ _ log => Forall is_log log
  end.
Proof.
  unfold loop_body. destruct (load os csvdir symbol) as [raw|e].
  - destruct (length (Frame.index raw) =? 0); [by repeat constructor|].
    destruct (align calendar metadata sid symbol raw) as [? [?|?]];
      by repeat constructor.
  - by repeat constructor.
Qed.

Lemma pricing_iter_logged csvdir want it metadata log out :
  Forall is_log log ->
  Forall is_log
    (logged (_pricing_iter os csvdir calendar want it metadata log out)).
Proof.
  revert want metadata log out.
  induction it as [|[sid symbol] it IH]; intros want metadata log out Hlog.
  { by rewrite pricing_iter_nil. }
  destruct (decide (want = Some 0)) as [->|Hw].
  { by rewrite pricing_iter_stop. }
  rewrite pricing_iter_cons by done.
  pose proof (loop_body_log csvdir metadata sid symbol) as Hl.
  destruct (loop_body os csvdir calendar metadata sid symbol); simpl;
    try apply IH; by apply Forall_app.
Qed.

Lemma consumption_logged : Forall is_log (logged consumed).
Proof.
  apply pricing_iter_logged.
  destruct (length (symbols_of os) =? 0); by repeat constructor.
Qed.

Variable environ : string -> option string.
Variable asset_db_writer : AssetDBWriter.
Variable adjustment_writer : AdjustmentWriter.
Variable start_session end_session : AwareTimestamp.
Variable cache : list (string * string).
Variable show_progress : bool.
Variable output_dir : string.
Variable start end_ : option Timestamp.

Abbreviation the_run :=
  (ingest os tframe environ asset_db_writer minute_bar_writer
     daily_bar_writer adjustment_writer calendar start_session end_session
     cache show_progress output_dir start end_).

Lemma ingest_env_bad :
  env_ok os = false ->
  exists msg, the_run = mkRun (Raise (SystemExit 1)) [LogError msg].
Proof.
  unfold env_ok, ingest, csvdir_of.
  destruct (falsy (os_environ os "CSVDIR")); simpl; [by eexists|].
  intros ->. simpl. by eexists.
Qed.

Lemma ingest_env_ok :
  env_ok os = true ->
  the_run =
  match raised consumed with
  | Some e =>
      mkRun (Raise e)
        (logged consumed ++
         [BarWrite writer (items consumed) show_progress])
  | None =>
      mkRun (Ok tt)
        ((logged consumed ++
          [BarWrite writer (items consumed) show_progress]) ++
         [AssetDBWrite asset_db_writer
            (Meta.set_exchange "CSVDIR" (Meta.dropna (table consumed)));
          AdjustmentWrite adjustment_writer None None])
  end.
Proof.
  unfold env_ok, ingest. intros [Hf Hd]%andb_true_iff.
  apply negb_true_iff in Hf. rewrite Hf. fold (csvdir_of os).
  rewrite Hd. simpl. fold (symbols_of os). fold consumed.
  by destruct (raised consumed).
Qed.

Lemma bar_data_run :
  bar_data the_run = if env_ok os then items consumed else [].
Proof.
  destruct (env_ok os) eqn:Hok.
  - rewrite (ingest_env_ok Hok). unfold bar_data.
    destruct (raised consumed); simpl;
      rewrite ?flat_map_app, (bar_payload_logs _ consumption_logged);
      simpl; by rewrite ?app_nil_r.
  - by destruct (ingest_env_bad Hok) as [msg ->].
Qed.

Lemma equities_written_run :
  equities_written the_run =
  if env_ok os then
    match raised consumed with
    | Some _ => []
    | None => Meta.set_exchange "CSVDIR" (Meta.dropna (table consumed))
    end
  else [].
Proof.
  destruct (env_ok os) eqn:Hok.
  - rewrite (ingest_env_ok Hok). unfold equities_written.
    destruct (raised consumed); simpl;
      rewrite ?flat_map_app, (equities_payload_logs _ consumption_logged);
      simpl; by rewrite ?app_nil_r.
  - by destruct (ingest_env_bad Hok) as [msg ->].
Qed.

Lemma outcome_run :
  outcome the_run = Ok tt <-> env_ok os = true /\ raised consumed = None.
Proof.
  destruct (env_ok os) eqn:Hok.
  - rewrite (ingest_env_ok Hok). destruct (raised consumed); simpl.
    + split; [done | by intros [_ ?]].
    + done.
  - destruct (ingest_env_bad Hok) as [msg ->]. simpl.
    split; [done | by intros [? _]].
Qed.

End RunFacts.

Lemma filter_fst_sorted {A} (p : nat * A -> bool) (l : list (nat * A)) :
  StronglySorted lt (map fst l) ->
  StronglySorted lt (map fst (List.filter p l)).
Proof.
  induction l as [|x l IH]; simpl; [done|].
  intros Hs. inversion Hs as [|? ? Hs' Hlt]; subst.
  destruct (p x); simpl; [|by apply IH].
  constructor; [by apply IH|].
  rewrite Forall_forall in Hlt |- *. intros j Hj. apply Hlt.
  apply list_elem_of_fmap in Hj as (y & -> & Hy).
  apply list_elem_of_In, filter_In in Hy as [Hy _].
  apply list_elem_of_fmap. exists y. by rewrite list_elem_of_In.
Qed.

Lemma lt_sorted_NoDup (l : list nat) : StronglySorted lt l -> NoDup l.
Proof.
  induction 1 as [|x l _ IH Hlt]; constructor; [|done].
  intros Hin. rewrite Forall_forall in Hlt. specialize (Hlt x Hin). lia.
Qed.

Lemma empty_lookup junk n i row :
  Meta.empty junk n !! i = Some row -> symbol row = None.
Proof.
  unfold Meta.empty. intros H. apply list_lookup_fmap_Some in H.
  by destruct H as (j & -> & _).
Qed.

Lemma dropna_elem_of (metadata : list MetaRow) i row :
  (i, row) ∈ Meta.dropna metadata <->
  metadata !! i = Some row /\ Meta.notna row = true.
Proof.
  unfold Meta.dropna.
  rewrite list_elem_of_In, filter_In, <- list_elem_of_In, enumerate_lookup.
  done.
Qed.

Section RunContents.

Variable os : OS.
Variable tframe : string.
Variable minute_bar_writer daily_bar_writer : BarWriter.
Variable calendar : TradingCalendar.
Variable environ : string -> option string.
Variable asset_db_writer : AssetDBWriter.
Variable adjustment_writer : AdjustmentWriter.
Variable start_session end_session : AwareTimestamp.
Variable cache : list (string * string).
Variable show_progress : bool.
Variable output_dir : string.
Variable start end_ : option Timestamp.

Abbreviation this_run :=
  (ingest os tframe environ asset_db_writer minute_bar_writer
     daily_bar_writer adjustment_writer calendar start_session end_session
     cache show_progress output_dir start end_).
Abbreviation this_consumption :=
  (consumption os tframe minute_bar_writer daily_bar_writer calendar).

(** Every pair a bar writer receives is the aligned frame of the symbol
    at the position the pair names. *)
Lemma bar_data_elem sid df :
  (sid, df) ∈ bar_data this_run ->
  exists symbol raw,
    symbols_of os !! sid = Some symbol /\
    parsed_nonempty os (csvdir_of os) symbol = Some raw /\
    aligned calendar raw df.
Proof.
  rewrite bar_data_run. destruct (env_ok os); [|by intros ?%elem_of_nil].
  unfold consumption.
  match goal with
  | |- context [_pricing_iter ?o ?d ?c ?w ?it ?m ?l ?out] =>
      destruct (pricing_iter_items o d c w it m l out) as (new & -> & Hall & _)
  end.
  simpl. intros Hin. rewrite Forall_forall in Hall.
  destruct (Hall _ Hin) as (symbol & raw & Hs & Hp & Ha). simpl in *.
  exists symbol, raw. by rewrite <- enumerate_lookup.
Qed.

Lemma bar_data_sorted : StronglySorted lt (map fst (bar_data this_run)).
Proof.
  rewrite bar_data_run. destruct (env_ok os); [|constructor].
  unfold consumption.
  match goal with
  | |- context [_pricing_iter ?o ?d ?c ?w ?it ?m ?l ?out] =>
      destruct (pricing_iter_items o d c w it m l out) as (new & -> & _ & Hs)
  end.
  simpl. apply Hs. rewrite enumerate_fst. apply seq_strongly_sorted.
Qed.

(** Every row the asset database writer receives is the row of the
    symbol at the position of its label. *)
Lemma equities_written_elem r :
  r ∈ equities_written this_run ->
  exchange r = "CSVDIR" /\
  exists symbol raw,
    symbols_of os !! label r = Some symbol /\
    parsed_nonempty os (csvdir_of os) symbol = Some raw /\
    row_of symbol raw (meta r) /\
    Meta.notna (meta r) = true.
Proof.
  rewrite equities_written_run.
  destruct (env_ok os); [|by intros ?%elem_of_nil].
  destruct (raised this_consumption); [by intros ?%elem_of_nil|].
  unfold Meta.set_exchange. intros Hr.
  apply list_elem_of_fmap in Hr as ([i row] & -> & Hir). simpl.
  split; [done|]. apply dropna_elem_of in Hir as [Hi Hn].
  unfold consumption in Hi.
  match type of Hi with
  | context [_pricing_iter ?o ?d ?c ?w ?it ?m ?l ?out] =>
      destruct (pricing_iter_table o d c w it m l out) as [_ Hrows]
  end.
  destruct (Hrows i row Hi) as [He|(symbol & raw & Hs & Hp & Hrow)].
  - apply empty_lookup in He. unfold Meta.notna in Hn. rewrite He in Hn.
    by rewrite andb_false_r in Hn.
  - exists symbol, raw. by rewrite <- enumerate_lookup.
Qed.

Lemma equities_written_sorted :
  StronglySorted lt (map label (equities_written this_run)).
Proof.
  rewrite equities_written_run. destruct (env_ok os); [|constructor].
  destruct (raised this_consumption); [constructor|].
  unfold Meta.set_exchange. rewrite map_map. simpl.
  unfold Meta.dropna. apply filter_fst_sorted.
  rewrite enumerate_fst. apply seq_strongly_sorted.
Qed.

End RunContents.

(** ** Aligned frames *)

Section AlignedFacts.

Variable calendar : TradingCalendar.
Variables raw df : DataFrame.
Hypothesis Haligned : aligned calendar raw df.

Lemma aligned_unique : NoDup (Frame.index raw).
Proof.
  destruct Haligned as (st & en & _ & _ & Hu & _).
  by apply FrameFacts.is_unique_NoDup.
Qed.

Lemma aligned_index start_date end_date :
  head (Frame.index raw) = Some start_date ->
  last (Frame.index raw) = Some end_date ->
  Frame.index df = session_index calendar start_date end_date.
Proof.
  destruct Haligned as (st & en & Hst & Hen & _ & ->).
  intros Hst' Hen'. rewrite Hst in Hst'. rewrite Hen in Hen'.
  injection Hst' as ->. injection Hen' as ->.
  rewrite FrameFacts.index_fillna. unfold Frame.index. simpl.
  rewrite map_map. simpl. apply map_id.
Qed.

Lemma aligned_body t row :
  (t, row) ∈ body df <->
  t ∈ Frame.index df /\
  row = map (Frame.fill_cell zero)
            (Frame.conformed_row raw (Frame.index df) t).
Proof.
  destruct Haligned as (st & en & Hst & Hen & _ & ->).
  rewrite FrameFacts.index_fillna. unfold Frame.index, Frame.fillna. simpl.
  rewrite !map_map. simpl. rewrite map_id. split.
  - intros H. apply list_elem_of_fmap in H as (t' & [= -> ->] & Hin). done.
  - intros [Hin ->]. apply list_elem_of_fmap. by exists t.
Qed.

End AlignedFacts.

(** The bookkeeping of the table and of the items does not read the log. *)
Lemma pricing_iter_log_irrel os csvdir calendar want it metadata log1 log2 out :
  let c1 := _pricing_iter os csvdir calendar want it metadata log1 out in
  let c2 := _pricing_iter os csvdir calendar want it metadata log2 out in
  raised c1 = raised c2 /\ items c1 = items c2 /\ table c1 = table c2.
Proof.
  revert want metadata log1 log2 out.
  induction it as [|[sid symbol] it IH]; intros want metadata log1 log2 out.
  { by rewrite !pricing_iter_nil. }
  destruct (decide (want = Some 0)) as [->|Hw].
  { by rewrite !pricing_iter_stop. }
  cbv zeta. rewrite !pricing_iter_cons by done.
  destruct (loop_body os csvdir calendar metadata sid symbol); [apply IH..|done].
Qed.

(** An exception that ends the loop was raised while a frame that had
    parsed, with a row, was being aligned. *)
Lemma pricing_iter_raised os csvdir calendar want it metadata log out e :
  raised (_pricing_iter os csvdir calendar want it metadata log out) = Some e ->
  exists sid symbol raw metadata0,
    (sid, symbol) ∈ it /\ parsed_nonempty os csvdir symbol = Some raw /\
    length metadata0 = length metadata /\
    snd (align calendar metadata0 sid symbol raw) = Raise e.
Proof.
  revert want metadata log out.
  induction it as [|[sid symbol] it IH]; intros want metadata log out.
  { by rewrite pricing_iter_nil. }
  destruct (decide (want = Some 0)) as [->|Hw].
  { by rewrite pricing_iter_stop. }
  rewrite pricing_iter_cons by done.
  pose proof (loop_body_cases os csvdir calendar metadata sid symbol) as Hc.
  destruct (loop_body os csvdir calendar metadata sid symbol)
    as [log'|item metadata' log'|e' metadata' log'].
  - intros (sid' & s & raw & m & Hin & ? & ? & ?)%IH.
    exists sid', s, raw, m. by rewrite elem_of_cons; auto.
  - destruct Hc as (raw0 & df & _ & _ & Ha).
    apply align_Ok in Ha as (_ & row & _ & _ & ->).
    intros (sid' & s & raw & m & Hin & ? & Hlen & ?)%IH.
    rewrite length_insert in Hlen.
    exists sid', s, raw, m. by rewrite elem_of_cons; auto.
  - simpl. intros [= ->]. destruct Hc as (raw & Hp & Ha).
    exists sid, symbol, raw, metadata. rewrite Ha.
    by rewrite elem_of_cons; auto.
Qed.

(** A symbol whose file does not parse can be left out of the enumeration:
    the loop ends with the same items, table and exception. *)
Lemma pricing_iter_skip os csvdir calendar symbol e :
  load os csvdir symbol = Raise e ->
  forall pre post sid want metadata log out,
    let c := _pricing_iter os csvdir calendar want
               (pre ++ (sid, symbol) :: post) metadata log out in
    let c' := _pricing_iter os csvdir calendar want
                (pre ++ post) metadata log out in
    raised c = raised c' /\ items c = items c' /\ table c = table c'.
Proof.
  intros Hload pre post sid.
  induction pre as [|[sid0 symbol0] pre IH]; intros want metadata log out;
    cbv zeta; cbn [app].
  - destruct (decide (want = Some 0)) as [->|Hw].
    { by rewrite !pricing_iter_stop. }
    rewrite pricing_iter_cons by done.
    unfold loop_body. rewrite Hload.
    apply pricing_iter_log_irrel.
  - destruct (decide (want = Some 0)) as [->|Hw].
    { by rewrite !pricing_iter_stop. }
    rewrite !pricing_iter_cons by done.
    destruct (loop_body os csvdir calendar metadata sid0 symbol0);
      [apply IH..|done].
Qed.

(** The loop reads the operating system through [read_csv] only. *)
Lemma pricing_iter_ext os os' csvdir calendar want it metadata log out :
  (forall path, read_csv os path = read_csv os' path) ->
  _pricing_iter os csvdir calendar want it metadata log out =
  _pricing_iter os' csvdir calendar want it metadata log out.
Proof.
  intros Hread. revert want metadata log out.
  induction it as [|[sid symbol] it IH]; intros want metadata log out.
  { by rewrite !pricing_iter_nil. }
  destruct (decide (want = Some 0)) as [->|Hw].
  { by rewrite !pricing_iter_stop. }
  rewrite !pricing_iter_cons by done.
  assert (loop_body os csvdir calendar metadata sid symbol =
          loop_body os' csvdir calendar metadata sid symbol) as ->.
  { unfold loop_body, load. by rewrite Hread. }
  destruct (loop_body os' csvdir calendar metadata sid symbol);
    [apply IH..|done].
Qed.




(** A row without a missing field has dates for its end and its auto
    close: the last label of the raw frame and the day after it. *)
Lemma row_of_dates symbol raw row :
  row_of symbol raw row -> Meta.notna row = true ->
  exists Dn tz,
    last (Frame.index raw) = Some (Date Dn tz) /\
    end_date row = Date Dn tz /\
    auto_close_date row = Date (Dn + one_day)%Z tz /\
    (Dn + one_day <= Timestamp_max)%Z.
Proof.
  intros (st & en & ac & _ & Hen & Hac & ->) Hn.
  unfold Meta.notna in Hn. simpl in Hn.
  destruct en as [t tz| |s]; simpl in Hac.
  - destruct (t + one_day <=? Timestamp_max)%Z eqn:Hle; [|done].
    injection Hac as <-. apply Z.leb_le in Hle. by exists t, tz.
  - by rewrite andb_false_r in Hn.
  - done.
Qed.

(** An integer of at most 53 bits is its own float. *)
Lemma float64_small z :
  (Z.abs z <= 2 ^ 53)%Z -> Frame.float64_of_Z z = z.
Proof.
  intros H. unfold Frame.float64_of_Z. apply Z.leb_le in H. by rewrite H.
Qed.

(** * The claims *)

Section Claims.

Variable os : OS.
Variable tframe : string.
Variable environ : string -> option string.
Variable asset_db_writer : AssetDBWriter.
Variable minute_bar_writer daily_bar_writer : BarWriter.
Variable adjustment_writer : AdjustmentWriter.
Variable calendar : TradingCalendar.
Variable start_session end_session : AwareTimestamp.
Variable cache : list (string * string).
Variable show_progress : bool.
Variable output_dir : string.
Variable start end_ : option Timestamp.

Abbreviation run :=
  (ingest os tframe environ asset_db_writer minute_bar_writer
     daily_bar_writer adjustment_writer calendar start_session end_session
     cache show_progress output_dir start end_).

(** C1. Let a symbol's file parse to a non-empty raw frame whose first
    index date is [D1] and whose last is [Dn]. Every frame a bar writer
    receives under the symbol's number has as index the calendar's
    sessions in the range from [D1] to [Dn], stripped of their time zone,
    and each of its rows at a date the raw frame does not have consists of
    0.0 only, one per column. When the run completes and the writer asked
    for the whole sequence, the writer did receive a frame under that
    number. *)
Theorem aligned_frame_index_C1 sid symbol raw D1 Dn :
  symbols_of os !! sid = Some symbol ->
  parsed_nonempty os (csvdir_of os) symbol = Some raw ->
  head (Frame.index raw) = Some D1 ->
  last (Frame.index raw) = Some Dn ->
  (forall df, (sid, df) ∈ bar_data run ->
     Frame.index df =
       map naive (tz_localize_None (sessions_in_range calendar D1 Dn)) /\
     forall t row, (t, row) ∈ body df -> t ∉ Frame.index raw ->
       row = replicate (length (columns raw)) zero) /\
  (outcome run = Ok tt ->
   demand (select_writer tframe minute_bar_writer daily_bar_writer) = None ->
   exists df, (sid, df) ∈ bar_data run).
Proof.
  intros Hsym Hp Hst Hen. split.
  - intros df Hin.
    apply bar_data_elem in Hin as (symbol' & raw' & Hsym' & Hp' & Hal).
    rewrite Hsym in Hsym'. injection Hsym' as <-.
    rewrite Hp in Hp'. injection Hp' as <-.
    split; [by apply (aligned_index _ _ _ Hal)|].
    intros t row Hrow Hnin.
    apply (aligned_body _ _ _ Hal) in Hrow as [_ ->].
    unfold Frame.conformed_row.
    apply FrameFacts.loc_None in Hnin. rewrite Hnin.
    change (map (Frame.fill_cell zero)) with (fmap (M:=list) (Frame.fill_cell zero)).
    by rewrite fmap_replicate.
  - intros Hok Hdrain. apply outcome_run in Hok as [Henv Hr].
    rewrite bar_data_run, Henv. unfold consumption in Hr |- *.
    rewrite Hdrain in Hr |- *.
    eapply pricing_iter_drain_items; [exact Hr| |exact Hp].
    by apply enumerate_lookup.
Qed.

(** C8, as the code has it. Take a frame a bar writer receives under a
    symbol's number, and a label that a row of the symbol's raw frame
    carries and that is in the index of the received frame (a date without
    a time zone, as every label of that index). The received frame has a
    row for the label, and in any such row each cell is 0.0 when the raw
    cell at its place is missing, the float of the raw cell when that is an
    integer of an integer column and the session list has a date the
    raw frame lacks, and the raw cell in every other case. The float of an
    integer of at most 53 bits is the integer itself. *)
Theorem cells_pass_through_C8 sid symbol raw df t row :
  symbols_of os !! sid = Some symbol ->
  parsed_nonempty os (csvdir_of os) symbol = Some raw ->
  (sid, df) ∈ bar_data run ->
  (t, row) ∈ body raw ->
  t ∈ Frame.index df ->
  (exists u, t = naive u) /\
  (exists row', (t, row') ∈ body df) /\
  (forall row', (t, row') ∈ body df ->
     length row' = length row /\
     forall j c, row !! j = Some c ->
       row' !! j =
       Some (aligned_cell (Frame.grows raw (Frame.index df) &&
                           Frame.int_column raw j) c)) /\
  (forall z, (Z.abs z <= 2 ^ 53)%Z ->
     aligned_cell true (Int z) = Num (inject_Z z)).
Proof.
  intros Hsym Hp Hin Hrow Ht.
  apply bar_data_elem in Hin as (symbol' & raw' & Hsym' & Hp' & Hal).
  rewrite Hsym in Hsym'. injection Hsym' as <-.
  rewrite Hp in Hp'. injection Hp' as <-.
  assert (Frame.loc t (body raw) = Some row) as Hat.
  { apply (FrameFacts.loc_unique t row (body raw)
             (aligned_unique _ _ _ Hal) Hrow). }
  split; [|split; [|split]].
  - destruct Hal as (st & en & Hst & Hen & _ & ->).
    rewrite FrameFacts.index_fillna in Ht. unfold Frame.index in Ht.
    simpl in Ht. rewrite map_map in Ht. simpl in Ht. rewrite map_id in Ht.
    unfold session_index in Ht.
    apply list_elem_of_fmap in Ht as (u & -> & _). by exists u.
  - eexists. by apply (aligned_body _ _ _ Hal).
  - intros row' Hrow'. apply (aligned_body _ _ _ Hal) in Hrow' as [_ ->].
    unfold Frame.conformed_row. rewrite Hat.
    destruct (Frame.grows raw (Frame.index df)); simpl.
    + unfold Frame.upcast_row. split; [by rewrite length_map, length_imap|].
      intros j c Hj.
      match goal with
      | |- map ?f ?l !! j = _ => change (map f l) with (f <$> l)
      end.
      rewrite list_lookup_fmap, list_lookup_imap, Hj. simpl.
      destruct c as [|z| |]; try done.
      by destruct (Frame.int_column raw j).
    + split; [by rewrite length_map|].
      intros j c Hj.
      change (map (Frame.fill_cell zero) row)
        with (Frame.fill_cell zero <$> row).
      rewrite list_lookup_fmap, Hj. by destruct c.
  - intros z Hz. simpl. by rewrite float64_small.
Qed.

(** C10. The numbers of the pairs a bar writer receives increase strictly,
    and each pair is the aligned frame of the symbol at the position its
    number names in the sorted symbols; the labels of the rows the asset
    database writer receives increase strictly as well, and each row
    carries the symbol at the position of its label. So no number occurs
    twice among the pairs, and none twice among the rows. *)
Theorem sids_increase_C10 :
  StronglySorted lt (map fst (bar_data run)) /\
  NoDup (map fst (bar_data run)) /\
  (forall sid df, (sid, df) ∈ bar_data run ->
     exists symbol raw,
       symbols_of os !! sid = Some symbol /\
       parsed_nonempty os (csvdir_of os) symbol = Some raw /\
       aligned calendar raw df) /\
  StronglySorted lt (map label (equities_written run)) /\
  NoDup (map label (equities_written run)) /\
  (forall r, r ∈ equities_written run ->
     exists s, symbols_of os !! label r = Some s /\ symbol (meta r) = Some s).
Proof.
  pose proof (bar_data_sorted os tframe minute_bar_writer daily_bar_writer
                calendar environ asset_db_writer adjustment_writer
                start_session end_session cache show_progress output_dir
                start end_) as Hb.
  pose proof (equities_written_sorted os tframe minute_bar_writer
                daily_bar_writer calendar environ asset_db_writer
                adjustment_writer start_session end_session cache
                show_progress output_dir start end_) as He.
  repeat split; auto using lt_sorted_NoDup.
  - intros sid df. apply bar_data_elem.
  - intros r Hr.
    apply equities_written_elem in Hr
      as (_ & s & raw & Hs & _ & (st & en & ac & _ & _ & _ & ->) & _).
    by exists s.
Qed.

(** C3. Every row the asset database writer receives belongs to a symbol
    of the run, has as end date the last index date of the symbol's raw
    frame, and has as auto close date that end date plus one day, in the
    time zone of the end date if it has one; this holds for every
    calendar. *)
Theorem auto_close_next_day_C3 r :
  r ∈ equities_written run ->
  exists s raw Dn tz,
    symbols_of os !! label r = Some s /\
    parsed_nonempty os (csvdir_of os) s = Some raw /\
    last (Frame.index raw) = Some (Date Dn tz) /\
    end_date (meta r) = Date Dn tz /\
    auto_close_date (meta r) = Date (Dn + one_day)%Z tz.
Proof.
  intros Hr.
  apply equities_written_elem in Hr as (_ & s & raw & Hs & Hp & Hrow & Hn).
  destruct (row_of_dates _ _ _ Hrow Hn) as (Dn & tz & Hl & He & Ha & _).
  by exists s, raw, Dn, tz.
Qed.

(** Let the reading of a symbol's file raise, whatever the exception.
    The turn of the loop for the symbol logs the failure and goes on to
    the next symbol, and the loop ends as it would have without the
    symbol: with the same items, the same table and the same exception,
    if any. In a run, no bar writer receives a pair under the symbol's
    number, the asset database writer receives no row under it, and an
    exception that leaves [ingest] is the exit at the start or comes from
    the alignment of a symbol whose file did parse. *)
Lemma parse_failure_skips symbol e :
  load os (csvdir_of os) symbol = Raise e ->
  (forall metadata sid,
     loop_body os (csvdir_of os) calendar metadata sid symbol =
     Continue [LogDebug symbol sid;
               LogError ("unable to parse " +:+ symbol +:+ ".csv")]) /\
  (forall pre post sid want metadata log out,
     let c := _pricing_iter os (csvdir_of os) calendar want
                (pre ++ (sid, symbol) :: post) metadata log out in
     let c' := _pricing_iter os (csvdir_of os) calendar want
                 (pre ++ post) metadata log out in
     raised c = raised c' /\ items c = items c' /\ table c = table c') /\
  (forall sid, symbols_of os !! sid = Some symbol ->
     (forall df, (sid, df) ∉ bar_data run) /\
     (forall r, r ∈ equities_written run -> label r <> sid)) /\
  (forall e', outcome run = Raise e' ->
     (env_ok os = false /\ e' = SystemExit 1) \/
     exists sid' s raw metadata,
       symbols_of os !! sid' = Some s /\
       parsed_nonempty os (csvdir_of os) s = Some raw /\
       snd (align calendar metadata sid' s raw) = Raise e').
Proof.
  intros Hload. split; [|split; [|split]].
  - intros metadata sid. unfold loop_body. by rewrite Hload.
  - by apply (pricing_iter_skip os (csvdir_of os) calendar symbol e).
  - intros sid Hsym. split.
    + intros df Hin.
      apply bar_data_elem in Hin as (s & raw & Hs & Hp & _).
      rewrite Hsym in Hs. injection Hs as <-.
      apply parsed_nonempty_Some in Hp as [Hl _]. congruence.
    + intros r Hr Heq.
      apply equities_written_elem in Hr as (_ & s & raw & Hs & Hp & _).
      rewrite Heq, Hsym in Hs. injection Hs as <-.
      apply parsed_nonempty_Some in Hp as [Hl _]. congruence.
  - intros e' Hout. destruct (env_ok os) eqn:Hok.
    + right. rewrite (ingest_env_ok _ _ _ _ _ _ _ _ _ _ _ _ _ _ _ Hok) in Hout.
      destruct (raised (consumption os tframe minute_bar_writer
                          daily_bar_writer calendar)) as [e0|] eqn:Hr;
        [|done].
      simpl in Hout. injection Hout as ->.
      apply pricing_iter_raised in Hr
        as (sid' & s & raw & m & Hin & Hp & _ & Ha).
      exists sid', s, raw, m. by rewrite <- enumerate_lookup.
    + left. split; [done|].
      destruct (ingest_env_bad os tframe minute_bar_writer daily_bar_writer
                  calendar environ asset_db_writer adjustment_writer
                  start_session end_session cache show_progress output_dir
                  start end_ Hok) as [msg Hrun].
      rewrite Hrun in Hout. simpl in Hout. congruence.
Qed.

(** C5. When the process environment has no [CSVDIR], or has one that does
    not name a directory, [ingest] logs one error and exits with status 1,
    which is not zero; no writer has been called by then. *)
Theorem missing_csvdir_exits_C5 :
  os_environ os "CSVDIR" = None \/
  (exists path, os_environ os "CSVDIR" = Some path /\ isdir os path = false) ->
  (exists msg, run = mkRun (Raise (SystemExit 1)) [LogError msg]) /\
  (1 <> 0)%Z /\
  Forall (fun ev => is_writer_event ev = false) (events run).
Proof.
  intros H.
  assert (env_ok os = false) as Hok.
  { unfold env_ok, csvdir_of. destruct H as [->|(path & -> & Hd)]; [done|].
    simpl. rewrite Hd. apply andb_false_r. }
  destruct (ingest_env_bad os tframe minute_bar_writer daily_bar_writer
              calendar environ asset_db_writer adjustment_writer
              start_session end_session cache show_progress output_dir
              start end_ Hok) as [msg Hrun].
  split; [by exists msg|]. split; [done|].
  rewrite Hrun. simpl. by repeat constructor.
Qed.

(** C7. When the directory has no symbol file, [ingest] logs an error and
    goes on: the selected bar writer is called with no pair, the asset
    database writer with no row, the adjustment writer with no splits
    and no dividends, and [ingest] returns. *)
Theorem no_symbols_continues_C7 csvdir :
  os_environ os "CSVDIR" = Some csvdir ->
  csvdir <> "" ->
  isdir os csvdir = true ->
  discover (listdir os csvdir) = [] ->
  run =
  mkRun (Ok tt)
    [LogError ("no <symbol>.csv files found in " +:+ csvdir);
     BarWrite (select_writer tframe minute_bar_writer daily_bar_writer) []
       show_progress;
     AssetDBWrite asset_db_writer [];
     AdjustmentWrite adjustment_writer None None].
Proof.
  intros Henv Hne Hdir Hnone. unfold ingest. rewrite Henv. simpl.
  apply String.eqb_neq in Hne. rewrite Hne, Hdir, Hnone. simpl.
  by destruct (demand _) as [[|?]|].
Qed.

(** C9. [ingest] does not read its [environ] argument: two calls that
    differ in that argument, made where the environment of the process has
    the same [CSVDIR] and the file system and the memory hold the same, are
    the same run, with the same outcome and the same events. *)
Theorem environ_ignored_C9 (os' : OS)
    (environ1 environ2 : string -> option string) :
  os_environ os "CSVDIR" = os_environ os' "CSVDIR" ->
  (forall path, isdir os path = isdir os' path) ->
  (forall path, listdir os path = listdir os' path) ->
  (forall path, read_csv os path = read_csv os' path) ->
  (forall i k, junk os i k = junk os' i k) ->
  ingest os tframe environ1 asset_db_writer minute_bar_writer
    daily_bar_writer adjustment_writer calendar start_session end_session
    cache show_progress output_dir start end_ =
  ingest os' tframe environ2 asset_db_writer minute_bar_writer
    daily_bar_writer adjustment_writer calendar start_session end_session
    cache show_progress output_dir start end_.
Proof.
  intros Henv Hdir Hlist Hread Hjunk. unfold ingest.
  rewrite <- Henv. destruct (falsy (os_environ os "CSVDIR")); [done|].
  rewrite <- Hdir. destruct (isdir os (default "" (os_environ os "CSVDIR")));
    [|done].
  cbn [negb]. rewrite <- Hlist.
  assert (Meta.empty (junk os')
            (length (discover (listdir os (default "" (os_environ os "CSVDIR")))))
          = Meta.empty (junk os)
            (length (discover (listdir os (default "" (os_environ os "CSVDIR"))))))
    as ->.
  { unfold Meta.empty. apply map_ext. intros i. by rewrite !Hjunk. }
  by rewrite (pricing_iter_ext os os' _ _ _ _ _ _ _ Hread).
Qed.

End Claims.

(** ** Symbol discovery *)

Lemma discover_sorted names : Sorted String.le (discover names).
Proof. apply Sorted_merge_sort, _. Qed.

Lemma discover_Permutation names :
  discover names ≡ₚ
  map (Str.split_head ".csv")
      (List.filter (fun item => Str.endswith item ".csv") names).
Proof. apply merge_sort_Permutation. Qed.

(** The numbering of the symbols: position [sid] holds [symbol] exactly
    when the loop sees the pair [(sid, symbol)]. *)
Lemma sid_assignment names sid symbol :
  (sid, symbol) ∈ enumerate 0 (discover names) <->
  discover names !! sid = Some symbol.
Proof. apply enumerate_lookup. Qed.

(** C6. A directory that holds the two files [a.csv] and [a.csv.csv]:
    line 60 cuts both names at their first [.csv] and so yields the symbol
    [a] twice, under the numbers 0 and 1, where stripping the suffix
    yields the two symbols [a] and [a.csv]. *)
Theorem discover_repeats_symbol_C6 :
  NoDup ["a.csv"; "a.csv.csv"] /\
  discover ["a.csv"; "a.csv.csv"] = ["a"; "a"] /\
  symbol_names ["a.csv"; "a.csv.csv"] = ["a"; "a.csv"] /\
  enumerate 0 (discover ["a.csv"; "a.csv.csv"]) = [(0, "a"); (1, "a")] /\
  ~ NoDup (discover ["a.csv"; "a.csv.csv"]).
Proof.
  split; [|split; [|split; [|split]]].
  - apply NoDup_cons. split; [|apply NoDup_singleton].
    by intros [=]%list_elem_of_singleton.
  - by vm_compute.
  - by vm_compute.
  - by vm_compute.
  - change (discover ["a.csv"; "a.csv.csv"]) with ["a"; "a"].
    intros [Hnin _]%NoDup_cons. apply Hnin. left.
Qed.

(** ** The sample run *)

Example sample_symbols : symbols_of Sample.os = ["AAA"; "BBB"; "CCC"].
Proof. by vm_compute. Qed.

Example sample_raw :
  parsed_nonempty Sample.os "/data" "AAA" = Some Sample.raw_aaa.
Proof. by vm_compute. Qed.

Example sample_bar_data : bar_data Sample.run = [(0, Sample.aligned_aaa)].
Proof. by vm_compute. Qed.

Example sample_equities : equities_written Sample.run = [Sample.equity_aaa].
Proof. by vm_compute. Qed.

(** C2. A directory whose one file [GAP.csv] has a row with a blank date.
    The file parses to a frame with two rows, the second under a missing
    label; the bar writer asks for the whole sequence, the run completes
    and the bar writer receives the symbol's frame under the number 0. The
    row of the symbol in the table has a missing end date and a missing
    auto close date, [dropna] drops it with the rows that were never set,
    and the asset database writer receives no row at all. *)
Theorem blank_date_loses_row_C2 :
  symbols_of Sample.os_gap = ["GAP"] /\
  parsed_nonempty Sample.os_gap (csvdir_of Sample.os_gap) "GAP" =
    Some Sample.gap /\
  demand (select_writer "daily" Sample.minute Sample.daily) = None /\
  outcome Sample.run_gap = Ok tt /\
  bar_data Sample.run_gap = [(0, Sample.aligned_gap)] /\
  table (consumption Sample.os_gap "daily" Sample.minute Sample.daily
           Sample.calendar) =
    [mkMeta (naive Sample.jan02) NaT NaT (Some "GAP")] /\
  events Sample.run_gap =
    [LogDebug "GAP" 0;
     BarWrite Sample.daily [(0, Sample.aligned_gap)] false;
     AssetDBWrite Sample.assets [];
     AdjustmentWrite Sample.adjustments None None].
Proof. repeat split; by vm_compute. Qed.

(** C4. A directory with [AAA.csv] and a file [TXT.csv] whose date column
    does not parse. [read_csv] does not raise on it: it returns the frame
    with the dates left as text, which sorts, so that the [except] clause
    is not reached. Line 94 then adds a [Timedelta] to a text: the
    [TypeError] leaves [ingest], after the bar writer received the frame of
    [AAA.csv]; neither the asset database writer nor the adjustment writer
    is called. *)
Theorem unparsed_dates_escape_C4 :
  symbols_of Sample.os_txt = ["AAA"; "TXT"] /\
  read_csv Sample.os_txt "/data/TXT.csv" = Ok Sample.txt /\
  load Sample.os_txt (csvdir_of Sample.os_txt) "TXT" = Ok Sample.txt /\
  outcome Sample.run_txt = Raise TypeError /\
  events Sample.run_txt =
    [LogDebug "AAA" 0; LogDebug "TXT" 1;
     BarWrite Sample.daily [(0, Sample.aligned_aaa)] false].
Proof. repeat split; by vm_compute. Qed.

Lemma aligned_frame_index_C1_witness :
  symbols_of Sample.os !! 0 = Some "AAA" /\
  (forall df, (0, df) ∈ bar_data Sample.run ->
     Frame.index df =
     [naive Sample.jan02; naive Sample.jan03; naive Sample.jan06]) /\
  exists df, (0, df) ∈ bar_data Sample.run.
Proof.
  pose proof (aligned_frame_index_C1 Sample.os "daily" (fun _ => None)
                Sample.assets Sample.minute Sample.daily Sample.adjustments
                Sample.calendar (mkAware Sample.jan02 "UTC")
                (mkAware Sample.jan07 "UTC") [] false "/out" None None
                0 "AAA" _ (naive Sample.jan02) (naive Sample.jan06)
                eq_refl sample_raw eq_refl eq_refl) as [Hall Hex].
  split; [reflexivity|]. split.
  - intros df Hdf. exact (proj1 (Hall df Hdf)).
  - exact (Hex eq_refl eq_refl).
Defined.

(** The frame of [BIG.csv] has the integer [2^53 + 1] at 2020-01-02; the
    frame the bar writer receives has the float [2^53] there, the session
    of 2020-01-03 having brought a row of missing cells into the column. *)
Lemma cells_pass_through_C8_counterexample :
  symbols_of Sample.os_big !! 0 = Some "BIG" /\
  parsed_nonempty Sample.os_big (csvdir_of Sample.os_big) "BIG" =
    Some Sample.big /\
  (0, Sample.aligned_big) ∈ bar_data Sample.run_big /\
  (naive Sample.jan02, [Int (2 ^ 53 + 1)]) ∈ body Sample.big /\
  (naive Sample.jan02, [Num (inject_Z (2 ^ 53))]) ∈ body Sample.aligned_big /\
  ~ passed_through Sample.big Sample.aligned_big.
Proof.
  split; [reflexivity|]. split; [reflexivity|].
  assert ((naive Sample.jan02, [Int (2 ^ 53 + 1)]) ∈ body Sample.big) as Hr.
  { left. }
  assert ((naive Sample.jan02, [Num (inject_Z (2 ^ 53))])
            ∈ body Sample.aligned_big) as Hr'.
  { left. }
  split; [|split; [exact Hr|split; [exact Hr'|]]].
  - assert (bar_data Sample.run_big = [(0, Sample.aligned_big)]) as ->
      by (by vm_compute).
    left.
  - intros H. by specialize (H _ _ _ 0 _ Hr Hr' eq_refl ltac:(discriminate)).
Qed.

(** The labels of [UTC.csv] carry a time zone and the sessions the frame
    is reindexed to carry none: no label of the file is found among them,
    and every cell the bar writer receives is 0.0. *)
Example sample_aware_zeroed :
  parsed_nonempty Sample.os_utc (csvdir_of Sample.os_utc) "UTC" =
    Some Sample.utc /\
  bar_data Sample.run_utc =
    [(0, mkFrame ["volume"]
           [ (naive Sample.jan02, [Num 0]); (naive Sample.jan03, [Num 0]) ])] /\
  map meta (equities_written Sample.run_utc) =
    [mkMeta (Date Sample.jan02 (Some "UTC")) (Date Sample.jan03 (Some "UTC"))
            (Date (Sample.jan03 + one_day)%Z (Some "UTC")) (Some "UTC")].
Proof. repeat split; by vm_compute. Qed.

Lemma cells_pass_through_C8_witness :
  (0, Sample.aligned_aaa) ∈ bar_data Sample.run /\
  (naive Sample.jan06, [Num 3.5; NaN; Num 200]) ∈ body Sample.raw_aaa /\
  forall row',
    (naive Sample.jan06, row') ∈ body Sample.aligned_aaa ->
    row' !! 1 = Some zero /\ row' !! 2 = Some (Num 200).
Proof.
  assert ((0, Sample.aligned_aaa) ∈ bar_data Sample.run) as Hin.
  { rewrite sample_bar_data. left. }
  assert ((naive Sample.jan06, [Num 3.5; NaN; Num 200])
            ∈ body Sample.raw_aaa) as Hrow.
  { right. left. }
  assert (naive Sample.jan06 ∈ Frame.index Sample.aligned_aaa) as Ht.
  { vm_compute. right. right. left. }
  split; [exact Hin|]. split; [exact Hrow|]. intros row' Hrow'.
  pose proof (cells_pass_through_C8 Sample.os "daily" (fun _ => None)
                Sample.assets Sample.minute Sample.daily Sample.adjustments
                Sample.calendar (mkAware Sample.jan02 "UTC")
                (mkAware Sample.jan07 "UTC") [] false "/out" None None
                0 "AAA" Sample.raw_aaa Sample.aligned_aaa
                (naive Sample.jan06) [Num 3.5; NaN; Num 200]
                eq_refl sample_raw Hin Hrow Ht) as (_ & _ & Hcells & _).
  destruct (Hcells row' Hrow') as [_ Hj].
  split; [exact (Hj 1 NaN eq_refl) | exact (Hj 2 (Num 200) eq_refl)].
Defined.

Lemma auto_close_next_day_C3_witness :
  Sample.equity_aaa ∈ equities_written Sample.run /\
  exists Dn tz,
    end_date (meta Sample.equity_aaa) = Date Dn tz /\
    auto_close_date (meta Sample.equity_aaa) = Date (Dn + one_day)%Z tz.
Proof.
  assert (Sample.equity_aaa ∈ equities_written Sample.run) as Hin.
  { rewrite sample_equities. left. }
  split; [exact Hin|].
  destruct (auto_close_next_day_C3 Sample.os "daily" (fun _ => None)
              Sample.assets Sample.minute Sample.daily Sample.adjustments
              Sample.calendar (mkAware Sample.jan02 "UTC")
              (mkAware Sample.jan07 "UTC") [] false "/out" None None
              Sample.equity_aaa Hin)
    as (s & raw & Dn & tz & _ & _ & _ & Hend & Hac).
  exists Dn, tz. split; [exact Hend | exact Hac].
Defined.

Example sample_parse_failure :
  load Sample.os (csvdir_of Sample.os) "CCC" = Raise ParserError /\
  symbols_of Sample.os !! 2 = Some "CCC" /\
  (forall df, (2, df) ∉ bar_data Sample.run) /\
  (forall r, r ∈ equities_written Sample.run -> label r <> 2).
Proof.
  split; [reflexivity|]. split; [reflexivity|].
  exact (proj1 (proj2 (proj2
           (parse_failure_skips Sample.os "daily" (fun _ => None)
              Sample.assets Sample.minute Sample.daily Sample.adjustments
              Sample.calendar (mkAware Sample.jan02 "UTC")
              (mkAware Sample.jan07 "UTC") [] false "/out" None None
              "CCC" ParserError eq_refl))) 2 eq_refl).
Qed.

Lemma missing_csvdir_exits_C5_witness :
  os_environ Sample.os_unset "CSVDIR" = None /\
  Forall (fun ev => is_writer_event ev = false)
    (events (ingest Sample.os_unset "daily" (fun _ => Some "/data")
               Sample.assets Sample.minute Sample.daily Sample.adjustments
               Sample.calendar (mkAware Sample.jan02 "UTC")
               (mkAware Sample.jan07 "UTC") [] false "/out" None None)).
Proof.
  split; [reflexivity|].
  exact (proj2 (proj2
           (missing_csvdir_exits_C5 Sample.os_unset "daily"
              (fun _ => Some "/data")
              Sample.assets Sample.minute Sample.daily Sample.adjustments
              Sample.calendar (mkAware Sample.jan02 "UTC")
              (mkAware Sample.jan07 "UTC") [] false "/out" None None
              (or_introl eq_refl)))).
Defined.

Lemma no_symbols_continues_C7_witness :
  os_environ Sample.os_bare "CSVDIR" = Some "/data" /\
  discover (listdir Sample.os_bare "/data") = [] /\
  ingest Sample.os_bare "minute" (fun _ => None)
    Sample.assets Sample.minute Sample.daily Sample.adjustments
    Sample.calendar (mkAware Sample.jan02 "UTC")
    (mkAware Sample.jan07 "UTC") [] true "/out" None None =
  mkRun (Ok tt)
    [LogError "no <symbol>.csv files found in /data";
     BarWrite Sample.minute [] true;
     AssetDBWrite Sample.assets [];
     AdjustmentWrite Sample.adjustments None None].
Proof.
  split; [reflexivity|]. split; [reflexivity|].
  apply (no_symbols_continues_C7 Sample.os_bare "minute" (fun _ => None)
           Sample.assets Sample.minute Sample.daily Sample.adjustments
           Sample.calendar (mkAware Sample.jan02 "UTC")
           (mkAware Sample.jan07 "UTC") [] true "/out" None None
           "/data" eq_refl ltac:(discriminate) eq_refl eq_refl).
Defined.

Lemma environ_ignored_C9_witness :
  ingest Sample.os "daily" (fun _ => None)
    Sample.assets Sample.minute Sample.daily Sample.adjustments
    Sample.calendar (mkAware Sample.jan02 "UTC")
    (mkAware Sample.jan07 "UTC") [] false "/out" None None =
  ingest Sample.os "daily" (fun _ => Some "/elsewhere")
    Sample.assets Sample.minute Sample.daily Sample.adjustments
    Sample.calendar (mkAware Sample.jan02 "UTC")
    (mkAware Sample.jan07 "UTC") [] false "/out" None None.
Proof.
  apply (environ_ignored_C9 Sample.os "daily"
           Sample.assets Sample.minute Sample.daily Sample.adjustments
           Sample.calendar (mkAware Sample.jan02 "UTC")
           (mkAware Sample.jan07 "UTC") [] false "/out" None None
           Sample.os (fun _ => None) (fun _ => Some "/elsewhere")
           eq_refl (fun _ => eq_refl) (fun _ => eq_refl) (fun _ => eq_refl)
           (fun _ _ => eq_refl)).
Defined.

(** * Further properties *)

(** ** Symbol discovery *)

Lemma endswith_app s suffix :
  Str.endswith s suffix = true <-> exists stem, s = stem +:+ suffix.
Proof.
  split.
  - induction s as [|c s IH]; cbn [Str.endswith].
    + destruct (String.eqb_spec "" suffix) as [<-|]; [|done].
      intros _. by exists "".
    + destruct (String.eqb_spec (String c s) suffix) as [<-|].
      * intros _. by exists "".
      * intros [stem ->]%IH. by exists (String c stem).
  - intros [stem ->]. induction stem as [|c stem IH].
    + change ("" +:+ suffix) with suffix.
      destruct suffix; cbn [Str.endswith]; by rewrite String.eqb_refl.
    + change (String c stem +:+ suffix) with (String c (stem +:+ suffix)).
      cbn [Str.endswith]. rewrite IH. by destruct (String.eqb _ _).
Qed.

Lemma string_app_cons c s t : String c s +:+ t = String c (s +:+ t).
Proof. reflexivity. Qed.

Lemma string_app_nil t : "" +:+ t = t.
Proof. reflexivity. Qed.

Lemma string_length_app s t :
  String.length (s +:+ t) = String.length s + String.length t.
Proof.
  induction s as [|c s IH]; [done|].
  rewrite string_app_cons. simpl. by rewrite IH.
Qed.

Lemma strip_suffix_app stem suffix :
  Str.strip_suffix suffix (stem +:+ suffix) = stem.
Proof.
  unfold Str.strip_suffix.
  rewrite (proj2 (endswith_app (stem +:+ suffix) suffix)) by by exists stem.
  rewrite string_length_app, Nat.add_sub.
  induction stem as [|c stem IH].
  - rewrite string_app_nil. by destruct suffix.
  - rewrite string_app_cons. simpl. by rewrite IH.
Qed.

(** [.csv] does not start inside a name and end inside a [.csv] that
    follows the name. *)
Lemma prefix_csv_app s :
  s <> "" -> String.prefix ".csv" s = false ->
  String.prefix ".csv" (s +:+ ".csv") = false.
Proof.
  intros Hne H.
  destruct s as [|c0 s]; [done|].
  do 3 (rewrite ?string_app_cons, ?string_app_nil;
        cbn [String.prefix] in *;
        match goal with
        | |- context [Ascii.ascii_dec ?a ?b] =>
            destruct (Ascii.ascii_dec a b); [|done]
        end;
        destruct s as [|? s]; [done|]).
  rewrite ?string_app_cons. cbn [String.prefix] in *.
  match goal with
  | |- context [Ascii.ascii_dec ?a ?b] =>
      destruct (Ascii.ascii_dec a b); [|done]
  end.
  by destruct s.
Qed.

Lemma split_head_app_csv stem :
  Str.split_head ".csv" stem = stem ->
  Str.split_head ".csv" (stem +:+ ".csv") = stem.
Proof.
  induction stem as [|c stem IH]; [done|].
  intros H. cbn [Str.split_head] in H.
  destruct (String.prefix ".csv" (String c stem)) eqn:Hp; [done|].
  injection H as H.
  change (String c stem +:+ ".csv") with (String c (stem +:+ ".csv")).
  cbn [Str.split_head].
  change (String c (stem +:+ ".csv")) with (String c stem +:+ ".csv").
  rewrite (prefix_csv_app (String c stem)) by done.
  by rewrite IH.
Qed.

Lemma remove_dups_NoDup {A} `{EqDecision A} (l : list A) :
  NoDup l -> remove_dups l = l.
Proof.
  induction 1 as [|x l Hnin _ IH]; simpl; [done|].
  rewrite IH. by destruct (decide_rel elem_of x l).
Qed.

Lemma filter_endswith_elem_of names name :
  name ∈ List.filter (fun item => Str.endswith item ".csv") names <->
  name ∈ names /\ exists stem, name = stem +:+ ".csv".
Proof.
  rewrite list_elem_of_In, filter_In, <- list_elem_of_In.
  by rewrite endswith_app.
Qed.

(** X1. The symbols are in ascending order, and they are the names of the
    listing that end in [.csv], each cut at its first [.csv], as many as
    there are such names: a name that does not end in [.csv] gives no
    symbol, and no symbol is merged with another. *)
Theorem discover_sorted_stems names :
  Sorted String.le (discover names) /\
  discover names ≡ₚ
    map (Str.split_head ".csv")
        (List.filter (fun item => Str.endswith item ".csv") names) /\
  length (discover names) =
    length (List.filter (fun item => Str.endswith item ".csv") names) /\
  forall symbol, symbol ∈ discover names ->
    exists stem, stem +:+ ".csv" ∈ names /\
                 symbol = Str.split_head ".csv" (stem +:+ ".csv").
Proof.
  pose proof (merge_sort_Permutation String.le
                (map (Str.split_head ".csv")
                   (List.filter (fun item => Str.endswith item ".csv") names)))
    as Hperm.
  split; [apply Sorted_merge_sort, _|]. split; [exact Hperm|]. split.
  - unfold discover, Str.sorted. by rewrite Hperm, length_map.
  - intros symbol Hin. unfold discover, Str.sorted in Hin.
    rewrite Hperm in Hin. apply list_elem_of_fmap in Hin as (name & -> & Hin).
    apply filter_endswith_elem_of in Hin as [Hin [stem ->]]. by exists stem.
Qed.

(** X2. When the listing names no file twice and no name has a [.csv]
    before its suffix, the symbols are the sorted names with the suffix
    stripped, no symbol occurs twice, and the symbols are exactly the
    [s] for which the listing has [s.csv], the file the loop reads for
    [s]. *)
Theorem discover_plain_names names :
  NoDup names ->
  (forall stem, stem +:+ ".csv" ∈ names -> Str.split_head ".csv" stem = stem) ->
  discover names = symbol_names names /\
  NoDup (discover names) /\
  forall symbol, symbol ∈ discover names <-> symbol +:+ ".csv" ∈ names.
Proof.
  intros Hnd Hplain.
  set (files := List.filter (fun item => Str.endswith item ".csv") names).
  assert (forall name, name ∈ files ->
            Str.split_head ".csv" name = Str.strip_suffix ".csv" name) as Hsame.
  { intros name [Hin [stem ->]]%filter_endswith_elem_of.
    by rewrite strip_suffix_app, split_head_app_csv by auto. }
  assert (map (Str.split_head ".csv") files =
          map (Str.strip_suffix ".csv") files) as Hmap.
  { apply map_ext_in. intros name Hin. by apply Hsame, list_elem_of_In. }
  assert (NoDup (map (Str.strip_suffix ".csv") files)) as Hnd'.
  { apply NoDup_fmap_2_strong;
      [|by apply NoDup_ListNoDup, List.NoDup_filter, NoDup_ListNoDup].
    intros a b [_ [sa ->]]%filter_endswith_elem_of
                 [_ [sb ->]]%filter_endswith_elem_of.
    rewrite !strip_suffix_app. by intros ->. }
  assert (discover names ≡ₚ map (Str.strip_suffix ".csv") files) as Hperm.
  { unfold discover, Str.sorted. fold files. rewrite Hmap.
    apply merge_sort_Permutation. }
  split; [|split].
  - unfold discover, symbol_names. fold files.
    by rewrite Hmap, remove_dups_NoDup.
  - by rewrite Hperm.
  - intros symbol. rewrite Hperm. split.
    + intros (name & -> & Hin)%list_elem_of_fmap.
      apply filter_endswith_elem_of in Hin as [Hin [stem ->]].
      by rewrite strip_suffix_app.
    + intros Hin. apply list_elem_of_fmap. exists (symbol +:+ ".csv").
      rewrite strip_suffix_app. split; [done|].
      apply filter_endswith_elem_of. split; [done | by exists symbol].
Qed.

(** ** Sorted frames *)

Lemma string_ltb_false s u : String.ltb u s = false <-> String.le s u.
Proof.
  unfold String.le, String.ltb, String.leb.
  rewrite (String.compare_antisym s u).
  by destruct (String.compare u s); simpl; split; intros.
Qed.

Lemma label_le_refl a : Frame.label_le a a.
Proof.
  unfold Frame.label_le. destruct a as [t tz| |s]; simpl.
  - apply Z.ltb_irrefl.
  - done.
  - by apply string_ltb_false.
Qed.

Lemma label_le_trans a b c :
  Frame.label_le a b -> Frame.label_le b c -> Frame.label_le a c.
Proof.
  unfold Frame.label_le.
  destruct a as [t tz| |s], b as [t' tz'| |s'], c as [t'' tz''| |s''];
    simpl; try done.
  - rewrite !Z.ltb_ge. unfold Timestamp in *. lia.
  - rewrite !string_ltb_false. intros. by etrans.
Qed.

Lemma label_ltb_le a b : Frame.label_ltb a b = true -> Frame.label_le a b.
Proof.
  unfold Frame.label_le. destruct a as [t tz| |s], b as [t' tz'| |s'];
    simpl; try done.
  - rewrite Z.ltb_lt, Z.ltb_ge. unfold Timestamp in *. lia.
  - unfold String.ltb. rewrite (String.compare_antisym s s').
    by destruct (String.compare s' s).
Qed.

Lemma insert_row_elem_of r rows x :
  x ∈ Frame.insert_row r rows <-> x = r \/ x ∈ rows.
Proof.
  induction rows as [|r' rows IH]; simpl.
  - rewrite list_elem_of_singleton, elem_of_nil. tauto.
  - destruct (Frame.label_ltb (fst r) (fst r')).
    + by rewrite elem_of_cons.
    + rewrite !elem_of_cons, IH. tauto.
Qed.

Lemma insert_row_sorted r rows :
  StronglySorted Frame.label_le (map fst rows) ->
  StronglySorted Frame.label_le (map fst (Frame.insert_row r rows)).
Proof.
  induction rows as [|r' rows IH]; simpl.
  - intros _. by repeat constructor.
  - intros Hs. apply StronglySorted_inv in Hs as [Hs Hall].
    destruct (Frame.label_ltb (fst r) (fst r')) eqn:Hcmp; simpl.
    + apply label_ltb_le in Hcmp.
      constructor; [by constructor|]. constructor; [done|].
      eapply Forall_impl; [exact Hall|]. simpl.
      intros x Hx. by apply (label_le_trans _ (fst r')).
    + constructor; [by apply IH|].
      rewrite Forall_forall in Hall |- *. intros t Ht.
      apply list_elem_of_fmap in Ht as (x & -> & Hx).
      apply insert_row_elem_of in Hx as [->|Hx]; [exact Hcmp|].
      apply Hall. apply list_elem_of_fmap. by exists x.
Qed.

Lemma sort_rows_spec rows acc :
  let sorted := foldl (fun acc r => Frame.insert_row r acc) acc rows in
  (StronglySorted Frame.label_le (map fst acc) ->
   StronglySorted Frame.label_le (map fst sorted)) /\
  forall x, x ∈ sorted <-> x ∈ acc \/ x ∈ rows.
Proof.
  revert acc. induction rows as [|r rows IH]; intros acc; simpl.
  - split; [done|]. intros x. rewrite elem_of_nil. tauto.
  - destruct (IH (Frame.insert_row r acc)) as [Hs Hin]. split.
    + intros Hacc. by apply Hs, insert_row_sorted.
    + intros x. rewrite Hin, insert_row_elem_of, elem_of_cons. tauto.
Qed.

(** [sort_index] puts the labels in ascending order, the missing ones
    last, and keeps the rows and the columns. *)
Lemma sort_index_spec df raw :
  Frame.sort_index df = Ok raw ->
  StronglySorted Frame.label_le (Frame.index raw) /\
  (forall x, x ∈ body raw <-> x ∈ body df) /\
  (forall t, t ∈ Frame.index raw <-> t ∈ Frame.index df) /\
  columns raw = columns df.
Proof.
  unfold Frame.sort_index.
  destruct (Frame.comparable (Frame.index df)); [|done]. intros [= <-].
  destruct (sort_rows_spec (body df) []) as [Hs Hin].
  assert (forall x,
            x ∈ foldl (fun acc r => Frame.insert_row r acc) [] (body df) <->
            x ∈ body df) as Hsame.
  { intros x. rewrite Hin, elem_of_nil. tauto. }
  split; [|split; [|split]]; simpl.
  - apply Hs. constructor.
  - exact Hsame.
  - intros t. unfold Frame.index. simpl. rewrite !list_elem_of_fmap.
    split; intros (x & -> & Hx); exists x; split; try done; by apply Hsame.
  - done.
Qed.

Lemma sorted_head_least {A} (R : relation A) (l : list A) a t :
  (forall x, R x x) ->
  StronglySorted R l -> head l = Some a -> t ∈ l -> R a t.
Proof.
  intros Hrefl. destruct l as [|x l]; [done|]. simpl.
  intros [_ Hall]%StronglySorted_inv [= ->] [->|Hin]%elem_of_cons; [done|].
  rewrite Forall_forall in Hall. auto.
Qed.

Lemma sorted_last_greatest {A} (R : relation A) (l : list A) b t :
  (forall x, R x x) ->
  StronglySorted R l -> last l = Some b -> t ∈ l -> R t b.
Proof.
  intros Hrefl. induction l as [|x l IH]; [done|].
  intros [Hs Hall]%StronglySorted_inv Hlast Hin.
  destruct l as [|y l].
  - simpl in Hlast. injection Hlast as <-.
    by apply list_elem_of_singleton in Hin as ->.
  - rewrite last_cons_cons in Hlast.
    apply elem_of_cons in Hin as [->|Hin]; [|by apply IH].
    rewrite Forall_forall in Hall. apply Hall.
    apply list_elem_of_lookup. rewrite last_lookup in Hlast. eauto.
Qed.

Lemma head_elem_of {A} (l : list A) a : head l = Some a -> a ∈ l.
Proof. destruct l; [done|]. intros [= ->]. left. Qed.

Lemma last_elem_of {A} (l : list A) b : last l = Some b -> b ∈ l.
Proof. rewrite last_lookup. intros H. apply list_elem_of_lookup. eauto. Qed.

(** In a sorted index that ends with a date every label is a date, and
    none is later than the last. *)
Lemma sorted_last_date ix Dn tz l :
  StronglySorted Frame.label_le ix -> last ix = Some (Date Dn tz) ->
  l ∈ ix -> exists t tz', l = Date t tz' /\ (t <= Dn)%Z.
Proof.
  intros Hs Hlast Hin.
  pose proof (sorted_last_greatest _ _ _ _ label_le_refl Hs Hlast Hin) as Hle.
  unfold Frame.label_le in Hle. destruct l as [t tz'| |s]; simpl in Hle;
    [|done..].
  apply Z.ltb_ge in Hle. by exists t, tz'.
Qed.

Lemma sorted_head_date ix D1 tz t tz' :
  StronglySorted Frame.label_le ix -> head ix = Some (Date D1 tz) ->
  Date t tz' ∈ ix -> (D1 <= t)%Z.
Proof.
  intros Hs Hhead Hin.
  pose proof (sorted_head_least _ _ _ _ label_le_refl Hs Hhead Hin) as Hle.
  unfold Frame.label_le in Hle. simpl in Hle. by apply Z.ltb_ge in Hle.
Qed.

(** A sorted index has a missing label exactly when its last label is
    missing. *)
Lemma sorted_NaT_last ix l :
  StronglySorted Frame.label_le ix -> last ix = Some l ->
  NaT ∈ ix <-> l = NaT.
Proof.
  intros Hs Hlast. split.
  - intros Hin.
    pose proof (sorted_last_greatest _ _ _ _ label_le_refl Hs Hlast Hin) as Hle.
    unfold Frame.label_le in Hle. by destruct l.
  - intros ->. by apply last_elem_of.
Qed.

Lemma load_Ok os csvdir symbol raw :
  load os csvdir symbol = Ok raw ->
  exists df, read_csv os (Str.path_join csvdir (symbol +:+ ".csv")) = Ok df /\
             Frame.sort_index df = Ok raw.
Proof.
  unfold load. destruct (read_csv os _) as [df|e]; [|done].
  simpl. intros H. by exists df.
Qed.

Lemma parsed_sorted os csvdir symbol raw :
  parsed_nonempty os csvdir symbol = Some raw ->
  StronglySorted Frame.label_le (Frame.index raw).
Proof.
  intros [Hl _]%parsed_nonempty_Some.
  apply load_Ok in Hl as (df & _ & Hs).
  by apply sort_index_spec in Hs as [Hs _].
Qed.

(** The row of a sorted frame has no missing field exactly when the frame
    has no missing label. *)
Lemma row_of_notna_iff symbol raw row :
  StronglySorted Frame.label_le (Frame.index raw) ->
  row_of symbol raw row ->
  Meta.notna row = true <-> NaT ∉ Frame.index raw.
Proof.
  intros Hs (st & en & ac & Hst & Hen & Hac & ->).
  pose proof (sorted_NaT_last _ _ Hs Hen) as Hnat.
  unfold Meta.notna. simpl. destruct en as [t tz| |s]; simpl in Hac.
  - destruct (t + one_day <=? Timestamp_max)%Z; [|done].
    injection Hac as <-. simpl.
    assert (NaT ∉ Frame.index raw) as Hnin by (rewrite Hnat; done).
    split; [done|]. intros _.
    destruct st; [done| |done].
    by apply head_elem_of in Hst.
  - split; [by rewrite andb_false_r|].
    intros Hnin. exfalso. apply Hnin. by apply Hnat.
  - done.
Qed.

(** A row without a missing field has a date for its start as well. *)
Lemma row_of_start_date symbol raw row :
  StronglySorted Frame.label_le (Frame.index raw) ->
  row_of symbol raw row -> Meta.notna row = true ->
  exists D1 tz1 Dn tzn,
    head (Frame.index raw) = Some (Date D1 tz1) /\
    last (Frame.index raw) = Some (Date Dn tzn) /\
    row = mkMeta (Date D1 tz1) (Date Dn tzn) (Date (Dn + one_day)%Z tzn)
                 (Some symbol).
Proof.
  intros Hs Hrow Hn.
  destruct (row_of_dates _ _ _ Hrow Hn) as (Dn & tzn & Hlast & He & Ha & _).
  destruct Hrow as (st & en & ac & Hst & Hen & Hac & ->). simpl in *.
  subst en ac.
  destruct (sorted_last_date _ _ _ st Hs Hlast (head_elem_of _ _ Hst))
    as (D1 & tz1 & -> & _).
  by exists D1, tz1, Dn, tzn.
Qed.

(** ** The calls of the writers *)

Lemma bar_call_logs log : Forall is_log log -> flat_map bar_call log = [].
Proof.
  induction 1 as [|ev log Hev _ IH]; simpl; [done|].
  rewrite IH. by destruct ev.
Qed.


Section WriterCalls.

Variable os : OS.
Variable tframe : string.
Variable environ : string -> option string.
Variable asset_db_writer : AssetDBWriter.
Variable minute_bar_writer daily_bar_writer : BarWriter.
Variable adjustment_writer : AdjustmentWriter.
Variable calendar : TradingCalendar.
Variable start_session end_session : AwareTimestamp.
Variable cache : list (string * string).
Variable show_progress : bool.
Variable output_dir : string.
Variable start end_ : option Timestamp.

Abbreviation a_run :=
  (ingest os tframe environ asset_db_writer minute_bar_writer
     daily_bar_writer adjustment_writer calendar start_session end_session
     cache show_progress output_dir start end_).
Abbreviation a_consumption :=
  (consumption os tframe minute_bar_writer daily_bar_writer calendar).

(** X3. A run whose environment names a directory calls one bar writer,
    once: the minute writer when the time frame is ['minute'], the daily
    writer for any other time frame, with the progress flag [ingest] was
    given. The other bar writer is not called, and no bar writer is called
    when the environment names no directory. *)
Theorem one_bar_writer_called :
  bar_calls a_run =
  if env_ok os
  then [(if String.eqb tframe "minute" then minute_bar_writer
         else daily_bar_writer, show_progress)]
  else [].
Proof.
  destruct (env_ok os) eqn:Hok.
  - rewrite (ingest_env_ok _ _ _ _ _ _ _ _ _ _ _ _ _ _ _ Hok).
    unfold bar_calls.
    pose proof (consumption_logged os tframe minute_bar_writer
                  daily_bar_writer calendar) as Hlog.
    destruct (raised a_consumption); simpl;
      rewrite ?flat_map_app, (bar_call_logs _ Hlog); by simpl.
  - destruct (ingest_env_bad os tframe minute_bar_writer daily_bar_writer
                calendar environ asset_db_writer adjustment_writer
                start_session end_session cache show_progress output_dir
                start end_ Hok) as [msg ->].
    done.
Qed.


(** X5. Every row the asset database writer receives has the exchange
    [CSVDIR] and has all four of its fields set: its three dates are
    timestamps, none of them is [NaT] or a text, and its symbol is not
    [None]. *)
Theorem rows_complete r :
  r ∈ equities_written a_run ->
  exchange r = "CSVDIR" /\
  exists D1 tz1 Dn tzn Dc tzc symbol,
    meta r = mkMeta (Date D1 tz1) (Date Dn tzn) (Date Dc tzc) (Some symbol).
Proof.
  intros Hr.
  apply equities_written_elem in Hr as (Hx & s & raw & _ & Hp & Hrow & Hn).
  split; [done|].
  destruct (row_of_start_date _ _ _ (parsed_sorted _ _ _ _ Hp) Hrow Hn)
    as (D1 & tz1 & Dn & tzn & _ & _ & ->).
  by exists D1, tz1, Dn, tzn, (Dn + one_day)%Z, tzn, s.
Qed.

End WriterCalls.

(** ** More on the loop *)



Section MoreLoop.

Variable os : OS.
Variable csvdir : string.
Variable calendar : TradingCalendar.

Abbreviation iter := (_pricing_iter os csvdir calendar).

(** When the loop ends without an exception, the table has the row of
    every item at the number of the item, and is as it was at every other
    place, whatever the consumer asked for. *)
Lemma pricing_iter_links want it metadata log out :
  let c := iter want it metadata log out in
  NoDup (map fst it) ->
  raised c = None ->
  exists new,
    items c = out ++ new /\
    (forall sid df, (sid, df) ∈ new ->
       exists symbol raw row,
         (sid, symbol) ∈ it /\ parsed_nonempty os csvdir symbol = Some raw /\
         row_of symbol raw row /\ table c !! sid = Some row) /\
    (forall i, i ∉ map fst new -> table c !! i = metadata !! i).
Proof.
  revert want metadata log out.
  induction it as [|[sid symbol] it IH]; intros want metadata log out c Hnd Hr.
  { subst c. rewrite pricing_iter_nil. exists []. rewrite app_nil_r.
    split; [done|]. split; [|done]. by intros ? ? ?%elem_of_nil. }
  subst c. destruct (decide (want = Some 0)) as [->|Hw].
  { rewrite pricing_iter_stop. exists []. rewrite app_nil_r.
    split; [done|]. split; [|done]. by intros ? ? ?%elem_of_nil. }
  rewrite pricing_iter_cons in Hr |- * by done.
  cbn [map fst] in Hnd. apply NoDup_cons in Hnd as [Hsid Hnd].
  pose proof (loop_body_cases os csvdir calendar metadata sid symbol) as Hc.
  destruct (loop_body os csvdir calendar metadata sid symbol)
    as [log'|item metadata' log'|e metadata' log'].
  - destruct (IH want metadata (log ++ log') out Hnd Hr)
      as (new & Hit & Hnew & Hother).
    exists new. split; [done|]. split; [|done].
    intros sid' df' Hin.
    destruct (Hnew sid' df' Hin) as (s' & raw & row & Hin' & ? & ? & ?).
    exists s', raw, row. by rewrite elem_of_cons; auto.
  - destruct Hc as (raw & df & Hp & -> & Ha).
    apply align_Ok in Ha as (_ & row & Hrow & Hlt & ->).
    destruct (IH (Nat.pred <$> want) (<[sid := row]> metadata) (log ++ log')
                (out ++ [(sid, df)]) Hnd Hr)
      as (new & Hit & Hnew & Hother).
    assert (sid ∉ map fst new) as Hfresh.
    { intros Hin. apply Hsid.
      apply list_elem_of_fmap in Hin as ([sid' df'] & -> & Hin).
      destruct (Hnew sid' df' Hin) as (s' & _ & _ & Hin' & _).
      apply list_elem_of_fmap. by exists (sid', s'). }
    exists ((sid, df) :: new).
    split; [by rewrite Hit, <- app_assoc|]. split.
    + intros sid' df' [[= -> ->]|Hin]%elem_of_cons.
      * exists symbol, raw, row. rewrite elem_of_cons.
        rewrite (Hother sid Hfresh), list_lookup_insert_eq by done. auto.
      * destruct (Hnew sid' df' Hin) as (s' & raw' & row' & Hin' & ? & ? & ?).
        exists s', raw', row'. by rewrite elem_of_cons; auto.
    + intros i Hi. cbn [map fst] in Hi.
      apply not_elem_of_cons in Hi as [Hne Hi].
      rewrite (Hother i Hi). by apply list_lookup_insert_ne.
  - done.
Qed.

(** A consumer that asks for [n] items gets the first [n] of the items a
    consumer gets that asks for all of them. *)
Lemma pricing_iter_take n it metadata log1 log2 out1 out2 :
  exists new,
    items (iter None it metadata log1 out1) = out1 ++ new /\
    items (iter (Some n) it metadata log2 out2) = out2 ++ take n new.
Proof.
  revert n metadata log1 log2 out1 out2.
  induction it as [|[sid symbol] it IH]; intros n metadata log1 log2 out1 out2.
  { rewrite !pricing_iter_nil. exists []. simpl.
    by rewrite take_nil, !app_nil_r. }
  destruct n as [|n].
  { rewrite pricing_iter_stop.
    destruct (pricing_iter_items os csvdir calendar None ((sid, symbol) :: it)
                metadata log1 out1) as (new & Hnew & _).
    exists new. simpl. by rewrite app_nil_r. }
  rewrite !pricing_iter_cons by done.
  destruct (loop_body os csvdir calendar metadata sid symbol)
    as [log'|item metadata' log'|e metadata' log'].
  - apply IH.
  - destruct (IH n metadata' (log1 ++ log') (log2 ++ log') (out1 ++ [item])
                (out2 ++ [item])) as (new & H1 & H2).
    exists (item :: new). cbn [fmap option_fmap option_map Nat.pred].
    cbn [fmap option_fmap option_map Nat.pred] in H1, H2.
    rewrite H1, H2, <- !app_assoc. done.
  - exists []. simpl. by rewrite !app_nil_r.
Qed.

(** A symbol without a parsed frame with a row can be left out of the
    enumeration. *)
Lemma pricing_iter_skip_none symbol :
  parsed_nonempty os csvdir symbol = None ->
  forall pre post sid want metadata log out,
    let c := iter want (pre ++ (sid, symbol) :: post) metadata log out in
    let c' := iter want (pre ++ post) metadata log out in
    raised c = raised c' /\ items c = items c' /\ table c = table c'.
Proof.
  intros Hnone pre post sid.
  induction pre as [|[sid0 symbol0] pre IH]; intros want metadata log out;
    cbv zeta; cbn [app].
  - destruct (decide (want = Some 0)) as [->|Hw].
    { by rewrite !pricing_iter_stop. }
    rewrite pricing_iter_cons by done.
    pose proof (loop_body_cases os csvdir calendar metadata sid symbol) as Hc.
    destruct (loop_body os csvdir calendar metadata sid symbol)
      as [log'|item metadata' log'|e metadata' log'].
    + apply pricing_iter_log_irrel.
    + destruct Hc as (raw & df & Hp & _). congruence.
    + destruct Hc as (raw & Hp & _). congruence.
  - destruct (decide (want = Some 0)) as [->|Hw].
    { by rewrite !pricing_iter_stop. }
    rewrite !pricing_iter_cons by done.
    destruct (loop_body os csvdir calendar metadata sid0 symbol0);
      [apply IH..|done].
Qed.


(** The loop reads the files of the enumerated symbols only. *)
Lemma pricing_iter_ext_in os' want it metadata log out :
  (forall sid symbol, (sid, symbol) ∈ it ->
     read_csv os (Str.path_join csvdir (symbol +:+ ".csv")) =
     read_csv os' (Str.path_join csvdir (symbol +:+ ".csv"))) ->
  iter want it metadata log out =
  _pricing_iter os' csvdir calendar want it metadata log out.
Proof.
  revert want metadata log out.
  induction it as [|[sid symbol] it IH]; intros want metadata log out Hread.
  { by rewrite !pricing_iter_nil. }
  destruct (decide (want = Some 0)) as [->|Hw].
  { by rewrite !pricing_iter_stop. }
  rewrite !pricing_iter_cons by done.
  assert (loop_body os csvdir calendar metadata sid symbol =
          loop_body os' csvdir calendar metadata sid symbol) as ->.
  { unfold loop_body, load. rewrite (Hread sid symbol); [done|]. left. }
  assert (forall sid' symbol', (sid', symbol') ∈ it ->
            read_csv os (Str.path_join csvdir (symbol' +:+ ".csv")) =
            read_csv os' (Str.path_join csvdir (symbol' +:+ ".csv"))) as Hread'.
  { intros sid' symbol' Hin. apply (Hread sid'). by right. }
  destruct (loop_body os' csvdir calendar metadata sid symbol);
    [by apply IH..|done].
Qed.

End MoreLoop.

(** ** Runs *)

Section MoreRuns.

Variable os : OS.
Variable tframe : string.
Variable environ : string -> option string.
Variable asset_db_writer : AssetDBWriter.
Variable minute_bar_writer daily_bar_writer : BarWriter.
Variable adjustment_writer : AdjustmentWriter.
Variable calendar : TradingCalendar.
Variable start_session end_session : AwareTimestamp.
Variable cache : list (string * string).
Variable show_progress : bool.
Variable output_dir : string.
Variable start end_ : option Timestamp.

Abbreviation b_run :=
  (ingest os tframe environ asset_db_writer minute_bar_writer
     daily_bar_writer adjustment_writer calendar start_session end_session
     cache show_progress output_dir start end_).
Abbreviation b_consumption :=
  (consumption os tframe minute_bar_writer daily_bar_writer calendar).

(** X6. In a run that completes, whether the bar writer asked for the
    whole sequence or stopped before its end: the asset database writer
    receives no row without the bar writer having received a frame under
    the label of the row; and for a frame the bar writer received under a
    number, the asset database writer receives a row with that label
    exactly when the raw frame of the symbol has no missing label (a row
    with a blank date in the file leaves the frame without its row of
    metadata). When no raw frame has a missing label, the numbers of the
    frames are, in order, the labels of the rows. *)
Theorem bars_match_rows :
  outcome b_run = Ok tt ->
  (forall r, r ∈ equities_written b_run ->
     exists df, (label r, df) ∈ bar_data b_run) /\
  (forall sid df, (sid, df) ∈ bar_data b_run ->
     exists s raw,
       symbols_of os !! sid = Some s /\
       parsed_nonempty os (csvdir_of os) s = Some raw /\
       ((exists r, r ∈ equities_written b_run /\ label r = sid) <->
        NaT ∉ Frame.index raw)) /\
  ((forall s raw, s ∈ symbols_of os ->
      parsed_nonempty os (csvdir_of os) s = Some raw ->
      NaT ∉ Frame.index raw) ->
   map fst (bar_data b_run) = map label (equities_written b_run)).
Proof.
  intros Hok.
  pose proof (bar_data_sorted os tframe minute_bar_writer daily_bar_writer
                calendar environ asset_db_writer adjustment_writer
                start_session end_session cache show_progress output_dir
                start end_) as Hsb.
  pose proof (equities_written_sorted os tframe minute_bar_writer
                daily_bar_writer calendar environ asset_db_writer
                adjustment_writer start_session end_session cache
                show_progress output_dir start end_) as Hse.
  apply outcome_run in Hok as [Henv Hr].
  rewrite bar_data_run, equities_written_run, Henv, Hr in *.
  unfold consumption in *.
  match type of Hr with
  | raised (_pricing_iter _ _ _ ?w ?it ?m ?l ?out) = None =>
      destruct (pricing_iter_links os (csvdir_of os) calendar w it m l out)
        as (new & Hit & Hnew & Hother);
        [rewrite enumerate_fst; apply NoDup_seq | exact Hr |];
        set (c := _pricing_iter os (csvdir_of os) calendar w it m l out) in *
  end.
  rewrite Hit in *. cbn [app] in *.
  assert (forall r, r ∈ Meta.set_exchange "CSVDIR" (Meta.dropna (table c)) <->
            exists row, r = mkEquity (label r) row "CSVDIR" /\
                        table c !! label r = Some row /\
                        Meta.notna row = true) as Hrows.
  { intros r. unfold Meta.set_exchange. split.
    - intros ([i row] & -> & Hir)%list_elem_of_fmap.
      apply dropna_elem_of in Hir as [Hi Hn]. by exists row.
    - intros (row & -> & Hi & Hn). apply list_elem_of_fmap.
      exists (label {| label := label r; meta := row; exchange := "CSVDIR" |},
              row).
      split; [done|]. by apply dropna_elem_of. }
  assert (forall r, r ∈ Meta.set_exchange "CSVDIR" (Meta.dropna (table c)) ->
            exists df, (label r, df) ∈ new) as H1.
  { intros r (row & _ & Hi & Hn)%Hrows.
    destruct (decide (label r ∈ map fst new)) as [Hin|Hnin].
    - apply list_elem_of_fmap in Hin as ([sid df] & Heq & Hin).
      simpl in Heq. rewrite Heq. by exists df.
    - rewrite (Hother _ Hnin) in Hi. apply empty_lookup in Hi.
      unfold Meta.notna in Hn. rewrite Hi in Hn.
      by rewrite andb_false_r in Hn. }
  assert (forall sid df, (sid, df) ∈ new ->
            exists s raw,
              symbols_of os !! sid = Some s /\
              parsed_nonempty os (csvdir_of os) s = Some raw /\
              ((exists r, r ∈ Meta.set_exchange "CSVDIR"
                                (Meta.dropna (table c)) /\ label r = sid) <->
               NaT ∉ Frame.index raw)) as H2.
  { intros sid df Hin.
    destruct (Hnew sid df Hin) as (s & raw & row & Hs & Hp & Hrow & Hi).
    exists s, raw. split; [by apply enumerate_lookup|]. split; [done|].
    rewrite <- (row_of_notna_iff _ _ _ (parsed_sorted _ _ _ _ Hp) Hrow).
    split.
    - intros (r & (row' & _ & Hi' & Hn)%Hrows & <-). congruence.
    - intros Hn. exists (mkEquity sid row "CSVDIR"). split; [|done].
      apply Hrows. by exists row. }
  split; [exact H1|]. split; [exact H2|]. intros Hgood.
  apply (StronglySorted_unique_strong lt); [lia|done..|].
  apply NoDup_Permutation; [by apply lt_sorted_NoDup..|].
  intros sid. split.
  - intros ([sid' df] & -> & Hin)%list_elem_of_fmap. simpl.
    destruct (H2 sid' df Hin) as (s & raw & Hs & Hp & Hiff).
    destruct (proj2 Hiff) as (r & Hr' & <-).
    { apply (Hgood s); [|done]. by eapply list_elem_of_lookup_2. }
    by apply list_elem_of_fmap_2.
  - intros (r & -> & Hr')%list_elem_of_fmap.
    destruct (H1 r Hr') as [df Hdf].
    apply list_elem_of_fmap. by exists (label r, df).
Qed.

(** X7. A bar writer that stops asking after [n] items receives the first
    [n] of the pairs that a bar writer receives which asks until the
    sequence ends, and so at most [n] pairs. *)
Theorem partial_consumer_prefix n (minute_bar_writer' daily_bar_writer' : BarWriter) :
  demand (select_writer tframe minute_bar_writer daily_bar_writer) = Some n ->
  demand (select_writer tframe minute_bar_writer' daily_bar_writer') = None ->
  bar_data b_run =
    take n (bar_data
              (ingest os tframe environ asset_db_writer minute_bar_writer'
                 daily_bar_writer' adjustment_writer calendar start_session
                 end_session cache show_progress output_dir start end_)) /\
  length (bar_data b_run) <= n.
Proof.
  intros Hn Hall.
  assert (bar_data b_run =
    take n (bar_data
              (ingest os tframe environ asset_db_writer minute_bar_writer'
                 daily_bar_writer' adjustment_writer calendar start_session
                 end_session cache show_progress output_dir start end_)))
    as Heq.
  { rewrite !bar_data_run. destruct (env_ok os); [|by rewrite take_nil].
    unfold consumption. rewrite Hn, Hall.
    match goal with
    | |- items (_pricing_iter _ _ _ _ ?it ?m ?l _) = _ =>
        destruct (pricing_iter_take os (csvdir_of os) calendar n it m l l [] [])
          as (new & -> & ->)
    end.
    done. }
  split; [exact Heq|]. rewrite Heq, length_take. lia.
Qed.

(** X8. In every row the asset database writer receives, the start date
    is the earliest and the end date the latest of the dates in the
    symbol's file, in whatever order the file has its rows; every label of
    the file is then a date between the two. *)
Theorem metadata_dates_span r :
  r ∈ equities_written b_run ->
  exists s df D1 tz1 Dn tzn,
    symbols_of os !! label r = Some s /\
    read_csv os (Str.path_join (csvdir_of os) (s +:+ ".csv")) = Ok df /\
    start_date (meta r) = Date D1 tz1 /\ end_date (meta r) = Date Dn tzn /\
    Date D1 tz1 ∈ Frame.index df /\ Date Dn tzn ∈ Frame.index df /\
    forall l, l ∈ Frame.index df ->
      exists t tz, l = Date t tz /\ (D1 <= t <= Dn)%Z.
Proof.
  intros Hr.
  apply equities_written_elem in Hr as (_ & s & raw & Hs & Hp & Hrow & Hn).
  pose proof (parsed_sorted _ _ _ _ Hp) as Hsorted.
  apply parsed_nonempty_Some in Hp as [Hl _].
  apply load_Ok in Hl as (df & Hread & Hsort).
  apply sort_index_spec in Hsort as (_ & _ & Hix & _).
  destruct (row_of_start_date _ _ _ Hsorted Hrow Hn)
    as (D1 & tz1 & Dn & tzn & Hhead & Hlast & ->).
  exists s, df, D1, tz1, Dn, tzn. simpl.
  split; [done|]. split; [done|]. split; [done|]. split; [done|].
  split; [by apply Hix, head_elem_of|].
  split; [by apply Hix, last_elem_of|].
  intros l Hin%Hix.
  destruct (sorted_last_date _ _ _ l Hsorted Hlast Hin) as (t & tz & -> & Hle).
  exists t, tz. split; [done|]. split; [|done].
  by eapply sorted_head_date.
Qed.

(** X9. A frame a bar writer receives has the columns of the symbol's raw
    frame and no missing cell. *)
Theorem frames_have_no_missing_cell sid df :
  (sid, df) ∈ bar_data b_run ->
  (exists s raw,
     symbols_of os !! sid = Some s /\
     parsed_nonempty os (csvdir_of os) s = Some raw /\
     columns df = columns raw) /\
  forall t row, (t, row) ∈ body df -> NaN ∉ row.
Proof.
  intros Hin.
  apply bar_data_elem in Hin as (s & raw & Hs & Hp & Hal). split.
  - exists s, raw. split; [done|]. split; [done|].
    by destruct Hal as (st & en & _ & _ & _ & ->).
  - intros t row Hrow Hnan.
    apply (aligned_body _ _ _ Hal) in Hrow as [_ ->].
    apply list_elem_of_fmap in Hnan as (c & Hc & _). by destruct c.
Qed.

(** X10. A symbol whose file parses to a frame without rows is passed
    over without an error in the log: the loop ends as it would have
    without the symbol, no bar writer receives a pair under its number and
    the asset database writer no row. *)
Theorem empty_frame_skipped symbol df :
  load os (csvdir_of os) symbol = Ok df ->
  Frame.index df = [] ->
  (forall metadata sid,
     loop_body os (csvdir_of os) calendar metadata sid symbol =
     Continue [LogDebug symbol sid]) /\
  (forall pre post sid want metadata log out,
     let c := _pricing_iter os (csvdir_of os) calendar want
                (pre ++ (sid, symbol) :: post) metadata log out in
     let c' := _pricing_iter os (csvdir_of os) calendar want
                 (pre ++ post) metadata log out in
     raised c = raised c' /\ items c = items c' /\ table c = table c') /\
  (forall sid, symbols_of os !! sid = Some symbol ->
     (forall df', (sid, df') ∉ bar_data b_run) /\
     (forall r, r ∈ equities_written b_run -> label r <> sid)).
Proof.
  intros Hload Hempty.
  assert (parsed_nonempty os (csvdir_of os) symbol = None) as Hnone.
  { unfold parsed_nonempty. by rewrite Hload, Hempty. }
  split; [|split].
  - intros metadata sid. unfold loop_body. by rewrite Hload, Hempty.
  - by apply pricing_iter_skip_none.
  - intros sid Hsym. split.
    + intros df' Hin.
      apply bar_data_elem in Hin as (s & raw & Hs & Hp & _).
      rewrite Hsym in Hs. injection Hs as <-. congruence.
    + intros r Hr Heq.
      apply equities_written_elem in Hr as (_ & s & raw & Hs & Hp & _).
      rewrite Heq, Hsym in Hs. injection Hs as <-. congruence.
Qed.



(** X13. A run reads the files [csvdir/s.csv] of its symbols [s] and no
    other file, lists and tests the directory of [CSVDIR] and no other:
    on a system that agrees with this one on these, and on the memory left
    uninitialised, the run is the same. *)
Theorem reads_only_symbol_files (os' : OS) :
  os_environ os "CSVDIR" = os_environ os' "CSVDIR" ->
  isdir os (csvdir_of os) = isdir os' (csvdir_of os) ->
  listdir os (csvdir_of os) = listdir os' (csvdir_of os) ->
  (forall s, s ∈ symbols_of os ->
     read_csv os (Str.path_join (csvdir_of os) (s +:+ ".csv")) =
     read_csv os' (Str.path_join (csvdir_of os) (s +:+ ".csv"))) ->
  (forall i k, junk os i k = junk os' i k) ->
  b_run =
  ingest os' tframe environ asset_db_writer minute_bar_writer
    daily_bar_writer adjustment_writer calendar start_session end_session
    cache show_progress output_dir start end_.
Proof.
  intros Henv Hdir Hlist Hread Hjunk. unfold ingest.
  unfold symbols_of, csvdir_of in *.
  rewrite <- Henv. destruct (falsy (os_environ os "CSVDIR")); [done|].
  rewrite <- Hdir. destruct (isdir os (default "" (os_environ os "CSVDIR")));
    [|done].
  cbn [negb]. rewrite <- Hlist.
  assert (Meta.empty (junk os')
            (length (discover (listdir os (default "" (os_environ os "CSVDIR")))))
          = Meta.empty (junk os)
            (length (discover (listdir os (default "" (os_environ os "CSVDIR"))))))
    as ->.
  { unfold Meta.empty. apply map_ext. intros i. by rewrite !Hjunk. }
  rewrite (pricing_iter_ext_in os _ calendar os'); [done|].
  intros sid s Hin. apply Hread.
  apply enumerate_lookup in Hin. by eapply list_elem_of_lookup_2.
Qed.

End MoreRuns.

(** ** The further properties on sample runs *)

Lemma plain_names_sound names :
  forallb plain_name names = true ->
  forall stem, stem +:+ ".csv" ∈ names -> Str.split_head ".csv" stem = stem.
Proof.
  intros Hall stem Hin. rewrite forallb_forall in Hall.
  apply list_elem_of_In, Hall in Hin. unfold plain_name in Hin.
  rewrite strip_suffix_app in Hin.
  rewrite (proj2 (endswith_app (stem +:+ ".csv") ".csv")) in Hin
    by by exists stem.
  by apply String.eqb_eq in Hin.
Qed.

Lemma discover_plain_names_witness :
  NoDup (listdir Sample.os "/data") /\
  discover (listdir Sample.os "/data") = ["AAA"; "BBB"; "CCC"] /\
  symbol_names (listdir Sample.os "/data") = ["AAA"; "BBB"; "CCC"].
Proof.
  assert (NoDup (listdir Sample.os "/data")) as Hnd.
  { apply (bool_decide_unpack _). by vm_compute. }
  split; [exact Hnd|]. split; [reflexivity|].
  rewrite <- (proj1 (discover_plain_names (listdir Sample.os "/data") Hnd
                      (plain_names_sound (listdir Sample.os "/data") eq_refl))).
  reflexivity.
Defined.

Lemma rows_complete_witness :
  Sample.equity_aaa ∈ equities_written Sample.run /\
  exchange Sample.equity_aaa = "CSVDIR".
Proof.
  assert (Sample.equity_aaa ∈ equities_written Sample.run) as Hin.
  { rewrite sample_equities. left. }
  split; [exact Hin|].
  exact (proj1 (rows_complete Sample.os "daily" (fun _ => None)
                  Sample.assets Sample.minute Sample.daily Sample.adjustments
                  Sample.calendar (mkAware Sample.jan02 "UTC")
                  (mkAware Sample.jan07 "UTC") [] false "/out" None None
                  Sample.equity_aaa Hin)).
Defined.

Lemma bars_match_rows_witness :
  outcome Sample.run_gap = Ok tt /\
  (0, Sample.aligned_gap) ∈ bar_data Sample.run_gap /\
  exists s raw,
    symbols_of Sample.os_gap !! 0 = Some s /\
    parsed_nonempty Sample.os_gap (csvdir_of Sample.os_gap) s = Some raw /\
    ((exists r, r ∈ equities_written Sample.run_gap /\ label r = 0) <->
     NaT ∉ Frame.index raw).
Proof.
  assert ((0, Sample.aligned_gap) ∈ bar_data Sample.run_gap) as Hin.
  { assert (bar_data Sample.run_gap = [(0, Sample.aligned_gap)]) as ->
      by (by vm_compute).
    left. }
  split; [reflexivity|]. split; [exact Hin|].
  exact (proj1 (proj2
           (bars_match_rows Sample.os_gap "daily" (fun _ => None)
              Sample.assets Sample.minute Sample.daily Sample.adjustments
              Sample.calendar (mkAware Sample.jan02 "UTC")
              (mkAware Sample.jan07 "UTC") [] false "/out" None None eq_refl))
           0 Sample.aligned_gap Hin).
Defined.

Example sample_pair_sids :
  map fst (bar_data
             (ingest Sample.os_pair "daily" (fun _ => None) Sample.assets
                Sample.minute Sample.daily Sample.adjustments Sample.calendar
                (mkAware Sample.jan02 "UTC") (mkAware Sample.jan07 "UTC")
                [] false "/out" None None)) = [0; 1].
Proof. by vm_compute. Qed.

Lemma partial_consumer_prefix_witness :
  demand Sample.daily_once = Some 1 /\
  demand Sample.daily = None /\
  bar_data
    (ingest Sample.os_pair "daily" (fun _ => None) Sample.assets
       Sample.minute Sample.daily_once Sample.adjustments Sample.calendar
       (mkAware Sample.jan02 "UTC") (mkAware Sample.jan07 "UTC")
       [] false "/out" None None) =
  take 1
    (bar_data
       (ingest Sample.os_pair "daily" (fun _ => None) Sample.assets
          Sample.minute Sample.daily Sample.adjustments Sample.calendar
          (mkAware Sample.jan02 "UTC") (mkAware Sample.jan07 "UTC")
          [] false "/out" None None)).
Proof.
  split; [reflexivity|]. split; [reflexivity|].
  exact (proj1 (partial_consumer_prefix Sample.os_pair "daily" (fun _ => None)
                  Sample.assets Sample.minute Sample.daily_once
                  Sample.adjustments Sample.calendar
                  (mkAware Sample.jan02 "UTC") (mkAware Sample.jan07 "UTC")
                  [] false "/out" None None 1 Sample.minute Sample.daily
                  eq_refl eq_refl)).
Defined.

Lemma metadata_dates_span_witness :
  Sample.equity_aaa ∈ equities_written Sample.run /\
  exists s df D1 tz1 Dn tzn,
    symbols_of Sample.os !! 0 = Some s /\
    read_csv Sample.os (Str.path_join (csvdir_of Sample.os) (s +:+ ".csv")) =
      Ok df /\
    naive Sample.jan02 = Date D1 tz1 /\ naive Sample.jan06 = Date Dn tzn /\
    Date D1 tz1 ∈ Frame.index df /\ Date Dn tzn ∈ Frame.index df /\
    forall l, l ∈ Frame.index df ->
      exists t tz, l = Date t tz /\ (D1 <= t <= Dn)%Z.
Proof.
  assert (Sample.equity_aaa ∈ equities_written Sample.run) as Hin.
  { rewrite sample_equities. left. }
  split; [exact Hin|].
  exact (metadata_dates_span Sample.os "daily" (fun _ => None)
           Sample.assets Sample.minute Sample.daily Sample.adjustments
           Sample.calendar (mkAware Sample.jan02 "UTC")
           (mkAware Sample.jan07 "UTC") [] false "/out" None None
           Sample.equity_aaa Hin).
Defined.

Lemma frames_have_no_missing_cell_witness :
  (0, Sample.aligned_aaa) ∈ bar_data Sample.run /\
  forall t row, (t, row) ∈ body Sample.aligned_aaa -> NaN ∉ row.
Proof.
  assert ((0, Sample.aligned_aaa) ∈ bar_data Sample.run) as Hin.
  { rewrite sample_bar_data. left. }
  split; [exact Hin|].
  exact (proj2 (frames_have_no_missing_cell Sample.os "daily" (fun _ => None)
                  Sample.assets Sample.minute Sample.daily Sample.adjustments
                  Sample.calendar (mkAware Sample.jan02 "UTC")
                  (mkAware Sample.jan07 "UTC") [] false "/out" None None
                  0 Sample.aligned_aaa Hin)).
Defined.

Lemma empty_frame_skipped_witness :
  load Sample.os (csvdir_of Sample.os) "BBB" = Ok Sample.bbb /\
  symbols_of Sample.os !! 1 = Some "BBB" /\
  (forall df', (1, df') ∉ bar_data Sample.run) /\
  (forall r, r ∈ equities_written Sample.run -> label r <> 1).
Proof.
  split; [reflexivity|]. split; [reflexivity|].
  exact (proj2 (proj2
           (empty_frame_skipped Sample.os "daily" (fun _ => None)
              Sample.assets Sample.minute Sample.daily Sample.adjustments
              Sample.calendar (mkAware Sample.jan02 "UTC")
              (mkAware Sample.jan07 "UTC") [] false "/out" None None
              "BBB" Sample.bbb eq_refl eq_refl)) 1 eq_refl).
Defined.





Lemma reads_only_symbol_files_witness :
  read_csv Sample.os "/data/hidden" <> read_csv Sample.os_more "/data/hidden" /\
  Sample.run =
  ingest Sample.os_more "daily" (fun _ => None) Sample.assets Sample.minute
    Sample.daily Sample.adjustments Sample.calendar
    (mkAware Sample.jan02 "UTC") (mkAware Sample.jan07 "UTC")
    [] false "/out" None None.
Proof.
  split; [discriminate|].
  apply (reads_only_symbol_files Sample.os "daily" (fun _ => None)
           Sample.assets Sample.minute Sample.daily Sample.adjustments
           Sample.calendar (mkAware Sample.jan02 "UTC")
           (mkAware Sample.jan07 "UTC") [] false "/out" None None
           Sample.os_more eq_refl eq_refl eq_refl).
  - intros s Hs. rewrite sample_symbols in Hs.
    repeat (apply elem_of_cons in Hs as [->|Hs]; [reflexivity|]).
    by apply elem_of_nil in Hs.
  - reflexivity.
Defined.
